(** * polymarket_copy_bot: a shallow embedding and its verified properties

    The script reads a target account's activity feed, picks the latest
    qualifying BUY trade, checks the operator's holdings and either skips
    or buys.  The embedding below follows [polymarket_copy_bot.py]
    function by function.

    - JSON objects are records.  A field that the code reads with
      [dict.get] may be absent; a field that is present has the type the
      feed gives it (strings, integers, numbers).  Indexing an absent
      field with [d[k]] raises [KeyError].  A JSON number is an [int] or a
      [float], as [json] decodes it.  Text is ASCII.
    - Network calls are answered by a [world].  A reply has a status and
      a body; [raise_for_status] raises on the statuses 400 to 599 and on
      no other.  Every request, every call to the order client and every
      printed line is recorded, in order, in a trace; a raised exception
      ends the computation and keeps the trace.
    - The module constants are the fields of a [config]. *)

From Stdlib Require Import Ascii.
From stdpp Require Import base decidable numbers list strings pretty gmap.

Local Open Scope Z_scope.

(** The value of a float.  Floats are only displayed or passed on (sizes,
    prices, the bet amount); none of the operations the script applies to
    a float can raise. *)
Abbreviation Q := QArith_base.Q.

(** A decoded JSON number: an [int], of any size, or a [float]. *)
Inductive number :=
| JInt (z : Z)
| JFloat (q : Q).

(** ** Decoded JSON records *)

(** An entry of [GET /activity].  The scanning loops read every field with
    [dict.get], so each one may be absent ([None]); a present field carries
    the type the feed gives it. *)
Module Activity.
Record t := mk {
  type : option string;
  side : option string;
  title : option string;
  conditionId : option string;
  outcomeIndex : option Z;
  outcome : option string;
  size : option number;
  price : option number;
  asset : option string }.
End Activity.

(** An entry of [GET /positions].  The code only ever indexes these with
    [p["..."]], on the four keys below.  The holdings are taken to carry
    all four: an entry without one of them would raise [KeyError] where it
    is read, in the loop that lists the holdings or in
    [already_has_position], before any decision is reported. *)
Module Position.
Record t := mk {
  conditionId : string;
  outcomeIndex : Z;
  title : string;
  outcome : string }.
End Position.

(** The body of [GET /public-profile]. *)
Module Profile.
Record t := mk { name : option string; pseudonym : option string }.
End Profile.

(** The (market, outcome) pair that identifies a position. *)
Definition PositionKey : Type := string * Z.

Definition activity_key (a : Activity.t) : option PositionKey :=
  match Activity.conditionId a, Activity.outcomeIndex a with
  | Some c, Some o => Some (c, o)
  | _, _ => None
  end.

Definition position_key (p : Position.t) : PositionKey :=
  (Position.conditionId p, Position.outcomeIndex p).

(** ** Strings *)

(** [s.startswith(p)] *)
Definition startswith (s p : string) : bool := String.prefix p s.

(** [s[:n]] *)
Definition take_chars (n : nat) (s : string) : string := String.substring 0 n s.

(** Whether character [c] occurs in [s]. *)
Fixpoint occurs (c : ascii) (s : string) : bool :=
  match s with
  | EmptyString => false
  | String a s' => if decide (a = c) then true else occurs c s'
  end.

(** ** PositionMatcher: [already_has_position] *)

(** The lambda [key = lambda c, o: f"{c}_{o}"]: [str] of an [int] is its
    decimal numeral, which is what [pretty] prints. *)
Definition key (c : string) (o : Z) : string := c +:+ "_" +:+ pretty o.

Definition already_has_position
    (my_positions : list Position.t) (conditionId : string) (outcomeIndex : Z) : bool :=
  let target_key := key conditionId outcomeIndex in
  let my_keys : gset string :=
    list_to_set
      ((λ p, key (Position.conditionId p) (Position.outcomeIndex p)) <$> my_positions) in
  bool_decide (target_key ∈ my_keys).

(** ** Configuration *)

(** The module-level constants.  Six of them come from the process
    environment; the other four are literals in the source and are kept as
    fields so that statements can range over them. *)
Record config := {
  TARGET_ADDRESS : string;
  FUNDER_ADDRESS : string;
  PRIVATE_KEY : string;
  SIGNATURE_TYPE : Z;
  BET_AMOUNT : Q;
  DRY_RUN : bool;
  FILTER_BITCOIN_UP_DOWN : bool;
  BITCOIN_UP_DOWN_PREFIX : string;
  SHOW_TARGET_POSITION_BETS : bool;
  TARGET_POSITION_BETS_LIMIT : Z }.

(** The values the script has when no environment variable is set. *)
Definition default_config : config := {|
  TARGET_ADDRESS := "0x63ce342161250d705dc0b16df89036c8e5f9ba9a";
  FUNDER_ADDRESS := "0x11c6a04b48cca2d6435ca33421d0d73a74a83d41";
  PRIVATE_KEY := "";
  SIGNATURE_TYPE := 1;
  BET_AMOUNT := QArith_base.Qmake 1 1;
  DRY_RUN := true;
  FILTER_BITCOIN_UP_DOWN := true;
  BITCOIN_UP_DOWN_PREFIX := "Bitcoin Up or Down";
  SHOW_TARGET_POSITION_BETS := true;
  TARGET_POSITION_BETS_LIMIT := 100 |}.

Definition CLOB_API : string := "https://clob.polymarket.com".

(** ** The order client's types *)

Inductive OrderType := GTC | FOK | GTD | FAK.

Definition BUY : string := "BUY".

Record MarketOrderArgs := {
  token_id : string;
  amount : Q;
  order_side : string;
  order_type : OrderType }.

Record ClobClient := {
  host : string;
  client_key : string;
  chain_id : Z;
  signature_type : Z;
  funder : string;
  creds : option string }.

(** ** Exceptions, replies, events *)

Inductive exn :=
| SystemExit (msg : string)
| HTTPError (status_code : Z)
| KeyError (k : string)
| OverflowError
| JSONDecodeError
| ClobException.

(** What [requests.get] returns.  [Success body] is a reply with a 2xx
    status whose body decodes to [body]; [Response status_code body] is a
    reply with any status, and with its decoded body when it has one. *)
Inductive reply (A : Type) :=
| Success (body : A)
| Response (status_code : Z) (body : option A).
Arguments Success {A} body.
Arguments Response {A} status_code body.

(** The lines the script prints. *)
Inductive message :=
| Banner (target_name : string) (bet_amount : Q) (dry_run : bool)
| Fetching_latest_bet
| No_recent_bets
| Found (title : string)
| Found_position (target_size : number) (outcome : string) (price : number)
| Target_bets_header
| Target_bet (idx : nat) (side : string) (size : number) (outcome_label : string)
    (bet_price : number)
| No_bets_for_position
| Checking_positions
| Open_positions_header
| Open_position (title outcome : string)
| No_open_positions
| Already_in_market
| Not_in_market_yet
| Placing_bet
| Dry_run_would_buy (bet_amount : Q) (outcome : string)
| Done_bought (bet_amount : Q) (outcome : string)
| Api_error (status_code : Z)
| Error (e : exn).

Inductive event :=
| Http_profile (address : string) (r : reply Profile.t)
| Http_positions (user : string) (sizeThreshold : Z) (r : reply (list Position.t))
| Http_activity (user : string) (limit : Z) (r : reply (list Activity.t))
| Clob_derive_api_key (client : ClobClient) (r : option string)
| Clob_create_market_order (client : ClobClient) (order : MarketOrderArgs) (r : option string)
| Clob_post_order (client : ClobClient) (signed_order : string) (ot : OrderType) (ok : bool)
| Print (m : message).

(** ** The world outside *)

(** How the three HTTP endpoints and the order client answer.  The activity
    endpoint is asked twice in a run, so its answer may also depend on how
    many activity requests came before.  [new_client] tells whether the
    constructor of the client accepts its arguments (it rejects a malformed
    key); for the other calls [None] and [false] stand for the call
    raising. *)
Record world := {
  public_profile : string → reply Profile.t;
  positions : string → Z → reply (list Position.t);
  activity : nat → string → Z → reply (list Activity.t);
  new_client : ClobClient → bool;
  derive_api_key : ClobClient → option string;
  create_market_order : ClobClient → MarketOrderArgs → option string;
  post_order : ClobClient → string → OrderType → bool }.

(** ** Computations: trace-passing with exceptions *)

Inductive result (A : Type) :=
| Return (a : A)
| Raise (e : exn).
Arguments Return {A} a.
Arguments Raise {A} e.

Definition M (A : Type) : Type := list event → result A * list event.

Definition ret {A} (a : A) : M A := λ tr, (Return a, tr).

Definition raise {A} (e : exn) : M A := λ tr, (Raise e, tr).

Definition bind {A B} (m : M A) (f : A → M B) : M B := λ tr,
  match m tr with
  | (Return a, tr') => f a tr'
  | (Raise e, tr') => (Raise e, tr')
  end.

Notation "'let*' x ':=' m 'in' k" := (bind m (λ x, k))
  (at level 10, x pattern, m at level 100, k at level 200).

Definition emit (e : event) : M unit := λ tr, (Return tt, tr ++ [e]).

Definition print (m : message) : M unit := emit (Print m).

Fixpoint for_each {A} (l : list A) (body : A → M unit) : M unit :=
  match l with
  | [] => ret tt
  | x :: l' => let* _ := body x in for_each l' body
  end.

(** [d[k]] on a field that may be absent. *)
Definition getitem {A} (k : string) (field : option A) : M A :=
  match field with
  | Some v => ret v
  | None => raise (KeyError k)
  end.

(** The statuses on which [raise_for_status] raises: client and server
    errors. *)
Definition is_error_status (status_code : Z) : bool :=
  (400 <=? status_code) && (status_code <? 600).

(** [response.raise_for_status()] *)
Definition raise_for_status {A} (r : reply A) : M unit :=
  match r with
  | Success _ => ret tt
  | Response status_code _ =>
    if is_error_status status_code then raise (HTTPError status_code) else ret tt
  end.

(** [response.json()] *)
Definition json {A} (r : reply A) : M A :=
  match r with
  | Success body => ret body
  | Response _ (Some body) => ret body
  | Response _ None => raise JSONDecodeError
  end.

(** An [int] converts to a float when it rounds to a finite double, that
    is below 2^1024 - 2^970 in absolute value. *)
Definition fits_float (z : Z) : bool := Z.abs z <? 2 ^ 1024 - 2 ^ 970.

(** [float(x)]; the float is given by its value, up to rounding. *)
Definition to_float (x : number) : M number :=
  match x with
  | JInt z => if fits_float z then ret (JFloat (QArith_base.inject_Z z)) else raise OverflowError
  | JFloat _ => ret x
  end.

(** Formatting [x] with a [.1f] or [.2f] specification: an [int] is
    converted to a float first. *)
Definition format_f (x : number) : M unit :=
  match x with
  | JInt z => if fits_float z then ret tt else raise OverflowError
  | JFloat _ => ret tt
  end.

(** [x * 100]; exact on an [int], up to rounding on a float. *)
Definition times_100 (x : number) : number :=
  match x with
  | JInt z => JInt (z * 100)
  | JFloat q => JFloat (QArith_base.Qmult q (QArith_base.inject_Z 100))
  end.

Definition is_activity_request (e : event) : bool :=
  match e with Http_activity _ _ _ => true | _ => false end.

Definition activity_requests (tr : list event) : nat :=
  length (List.filter is_activity_request tr).

Definition requests_get_profile (w : world) (address : string) : M (reply Profile.t) := λ tr,
  let r := public_profile w address in (Return r, tr ++ [Http_profile address r]).

Definition requests_get_positions (w : world) (user : string) (sizeThreshold : Z)
    : M (reply (list Position.t)) := λ tr,
  let r := positions w user sizeThreshold in
  (Return r, tr ++ [Http_positions user sizeThreshold r]).

Definition requests_get_activity (w : world) (user : string) (limit : Z)
    : M (reply (list Activity.t)) := λ tr,
  let r := activity w (activity_requests tr) user limit in
  (Return r, tr ++ [Http_activity user limit r]).

(** ** The API functions *)

(** [a or b] on optional strings: the first that is present and non-empty. *)
Definition truthy (s : option string) : bool :=
  match s with
  | Some (String _ _) => true
  | _ => false
  end.

(** [profile.get("name") or profile.get("pseudonym") or wallet_address[:10] + "..."] *)
Definition display_name (profile : Profile.t) (wallet_address : string) : string :=
  if truthy (Profile.name profile) then default "" (Profile.name profile)
  else if truthy (Profile.pseudonym profile) then default "" (Profile.pseudonym profile)
  else take_chars 10 wallet_address +:+ "...".

Definition get_profile_name (w : world) (wallet_address : string) : M string :=
  let* response := requests_get_profile w wallet_address in
  let* _ := raise_for_status response in
  let* profile := json response in
  ret (display_name profile wallet_address).

Definition get_positions (w : world) (wallet_address : string) : M (list Position.t) :=
  let* response := requests_get_positions w wallet_address 0 in
  let* _ := raise_for_status response in
  json response.

(** The [for activity in response.json()] loop of [get_latest_bet]; each
    [continue] is the recursive call on the rest of the feed. *)
Fixpoint get_latest_bet_loop (cfg : config) (feed : list Activity.t) : option Activity.t :=
  match feed with
  | [] => None
  | activity :: rest =>
    let is_buy_trade :=
      bool_decide (Activity.type activity = Some "TRADE")
      && bool_decide (Activity.side activity = Some "BUY") in
    if negb is_buy_trade then get_latest_bet_loop cfg rest
    else if FILTER_BITCOIN_UP_DOWN cfg then
      let title := default "" (Activity.title activity) in
      if negb (startswith title (BITCOIN_UP_DOWN_PREFIX cfg))
      then get_latest_bet_loop cfg rest
      else Some activity
    else Some activity
  end.

Definition get_latest_bet (cfg : config) (w : world) (wallet_address : string)
    : M (option Activity.t) :=
  let* response := requests_get_activity w wallet_address 20 in
  let* _ := raise_for_status response in
  let* feed := json response in
  ret (get_latest_bet_loop cfg feed).

(** One iteration of the loop of [get_target_bets_for_position]. *)
Definition same_position_step (condition_id : string) (outcome_index : Z)
    (same_position_bets : list Activity.t) (activity : Activity.t) : list Activity.t :=
  let is_trade := bool_decide (Activity.type activity = Some "TRADE") in
  let same_condition := bool_decide (Activity.conditionId activity = Some condition_id) in
  let same_outcome := bool_decide (Activity.outcomeIndex activity = Some outcome_index) in
  if is_trade && same_condition && same_outcome
  then same_position_bets ++ [activity]
  else same_position_bets.

Definition get_target_bets_for_position (w : world) (wallet_address : string)
    (condition_id : string) (outcome_index : Z) (limit : Z) : M (list Activity.t) :=
  let* response := requests_get_activity w wallet_address limit in
  let* _ := raise_for_status response in
  let* feed := json response in
  ret (fold_left (same_position_step condition_id outcome_index) feed []).

Definition get_clob_client (cfg : config) (w : world) : M ClobClient :=
  let client := {|
    host := CLOB_API;
    client_key := PRIVATE_KEY cfg;
    chain_id := 137;
    signature_type := SIGNATURE_TYPE cfg;
    funder := FUNDER_ADDRESS cfg;
    creds := None |} in
  if negb (new_client w client) then raise ClobException else
  let r := derive_api_key w client in
  let* _ := emit (Clob_derive_api_key client r) in
  match r with
  | None => raise ClobException
  | Some c =>
    ret {| host := host client; client_key := client_key client;
           chain_id := chain_id client; signature_type := signature_type client;
           funder := funder client; creds := Some c |}
  end.

Definition place_bet (w : world) (client : ClobClient) (token_id : string) (amount : Q)
    : M unit :=
  let order := {|
    token_id := token_id;
    amount := amount;
    order_side := BUY;
    order_type := FOK |} in
  let r := create_market_order w client order in
  let* _ := emit (Clob_create_market_order client order r) in
  match r with
  | None => raise ClobException
  | Some signed_order =>
    let ok := post_order w client signed_order FOK in
    let* _ := emit (Clob_post_order client signed_order FOK ok) in
    if ok then ret tt else raise ClobException
  end.

(** ** [main] *)

(** The body of the [enumerate(target_position_bets, start=1)] loop: the
    two calls of [float] may raise, then the row is printed. *)
Definition print_target_bet (row : nat * Activity.t) : M unit :=
  let '(idx, bet) := row in
  let side := default "?" (Activity.side bet) in
  let* size := to_float (default (JInt 0) (Activity.size bet)) in
  let* bet_price := to_float (default (JInt 0) (Activity.price bet)) in
  let outcome_label := default "?" (Activity.outcome bet) in
  print (Target_bet idx side size outcome_label bet_price).

(** Whether [float(x)] and the [f] formats go through on [x]. *)
Definition number_fits (x : number) : bool :=
  match x with
  | JInt z => fits_float z
  | JFloat _ => true
  end.

(** The value of [float(x)] when it goes through. *)
Definition float_value (x : number) : number :=
  match x with
  | JInt z => JFloat (QArith_base.inject_Z z)
  | JFloat _ => x
  end.

(** Whether a row of the history can be displayed. *)
Definition row_displayable (row : nat * Activity.t) : bool :=
  number_fits (default (JInt 0) (Activity.size row.2))
  && number_fits (default (JInt 0) (Activity.price row.2)).

(** The line of a row that can be displayed. *)
Definition target_bet_message (row : nat * Activity.t) : message :=
  Target_bet row.1
    (default "?" (Activity.side row.2))
    (float_value (default (JInt 0) (Activity.size row.2)))
    (default "?" (Activity.outcome row.2))
    (float_value (default (JInt 0) (Activity.price row.2))).

(** The rows displayed before the loop ends or raises. *)
Fixpoint shown_rows (rows : list (nat * Activity.t)) : list (nat * Activity.t) :=
  match rows with
  | [] => []
  | row :: rest => if row_displayable row then row :: shown_rows rest else []
  end.

(** The rows of [enumerate(bets, start=1)]. *)
Definition enumerate_from_1 (bets : list Activity.t) : list (nat * Activity.t) :=
  zip (seq 1 (length bets)) bets.

(** The body of the [for pos in my_positions] loop. *)
Definition open_position_line (pos : Position.t) : message :=
  Open_position (take_chars 40 (Position.title pos)) (Position.outcome pos).

Definition newline : string := String "010" "".

Definition missing_key_message : string :=
  "Missing POLYMARKET_PRIVATE_KEY environment variable." +:+ newline +:+
  "Set it in a .env file or export it in your shell." +:+ newline +:+
  "Example .env line:" +:+ newline +:+
  "  POLYMARKET_PRIVATE_KEY=0x...".

(** [if not latest] is the [None] branch: an entry that [get_latest_bet]
    returns has a type, so it is never an empty dict. *)
Definition main (cfg : config) (w : world) : M unit :=
  if bool_decide (PRIVATE_KEY cfg = "")
  then raise (SystemExit missing_key_message)
  else
  let* target_name := get_profile_name w (TARGET_ADDRESS cfg) in
  let* _ := print (Banner target_name (BET_AMOUNT cfg) (DRY_RUN cfg)) in
  let* _ := print Fetching_latest_bet in
  let* latest := get_latest_bet cfg w (TARGET_ADDRESS cfg) in
  match latest with
  | None => print No_recent_bets
  | Some latest =>
    let* title := getitem "title" (Activity.title latest) in
    let title := take_chars 50 title in
    let* outcome := getitem "outcome" (Activity.outcome latest) in
    let* target_size := getitem "size" (Activity.size latest) in
    let* price := getitem "price" (Activity.price latest) in
    let* _ := print (Found title) in
    let* _ := format_f target_size in
    let* _ := format_f (times_100 price) in
    let* _ := print (Found_position target_size outcome price) in
    let* _ :=
      if SHOW_TARGET_POSITION_BETS cfg then
        let* _ := print Target_bets_header in
        let* condition_id := getitem "conditionId" (Activity.conditionId latest) in
        let* outcome_index := getitem "outcomeIndex" (Activity.outcomeIndex latest) in
        let* target_position_bets :=
          get_target_bets_for_position w (TARGET_ADDRESS cfg)
            condition_id outcome_index (TARGET_POSITION_BETS_LIMIT cfg) in
        match target_position_bets with
        | _ :: _ =>
          for_each (enumerate_from_1 target_position_bets) print_target_bet
        | [] => print No_bets_for_position
        end
      else ret tt in
    let* _ := print Checking_positions in
    let* my_positions := get_positions w (FUNDER_ADDRESS cfg) in
    let* _ :=
      match my_positions with
      | _ :: _ =>
        let* _ := print Open_positions_header in
        for_each my_positions (λ pos, print (open_position_line pos))
      | [] => print No_open_positions
      end in
    let* condition_id := getitem "conditionId" (Activity.conditionId latest) in
    let* outcome_index := getitem "outcomeIndex" (Activity.outcomeIndex latest) in
    if already_has_position my_positions condition_id outcome_index
    then print Already_in_market
    else
      let* _ := print Not_in_market_yet in
      let* _ := print Placing_bet in
      let* client := get_clob_client cfg w in
      if DRY_RUN cfg
      then print (Dry_run_would_buy (BET_AMOUNT cfg) outcome)
      else
        let* asset := getitem "asset" (Activity.asset latest) in
        let* _ := place_bet w client asset (BET_AMOUNT cfg) in
        print (Done_bought (BET_AMOUNT cfg) outcome)
  end.

(** The [if __name__ == "__main__"] block: [HTTPError] and every other
    [Exception] are reported; [SystemExit] is not an [Exception] and leaves
    the process. *)
Definition script (cfg : config) (w : world) : M unit := λ tr,
  match main cfg w tr with
  | (Raise (HTTPError status_code), tr') => print (Api_error status_code) tr'
  | (Raise (SystemExit msg), tr') => (Raise (SystemExit msg), tr')
  | (Raise e, tr') => print (Error e) tr'
  | (Return tt, tr') => (Return tt, tr')
  end.

(** A run from the empty trace. *)
Definition run (cfg : config) (w : world) : result unit * list event := main cfg w [].

(** ** Reading a run *)

(** The three outcomes of the decision, as the report shows them: the run
    stops for lack of a qualifying trade (line 175), stops because the
    position is held (line 214), or goes on to buy (line 217). *)
Inductive CopyDecision := NoQualifyingActivity | AlreadyHeld | PlaceOrder.

Definition decision_of_event (e : event) : option CopyDecision :=
  match e with
  | Print No_recent_bets => Some NoQualifyingActivity
  | Print Already_in_market => Some AlreadyHeld
  | Print Not_in_market_yet => Some PlaceOrder
  | _ => None
  end.

(** The decision a trace shows, if it shows one. *)
Definition decision (tr : list event) : option CopyDecision :=
  head (omap decision_of_event tr).

(** Calls to the order client. *)
Definition clob_call (e : event) : option event :=
  match e with
  | Clob_derive_api_key _ _ | Clob_create_market_order _ _ _ | Clob_post_order _ _ _ _ => Some e
  | _ => None
  end.

Definition clob_calls (tr : list event) : list event := omap clob_call tr.

(** The orders handed to [create_market_order]. *)
Definition created_order (e : event) : option MarketOrderArgs :=
  match e with
  | Clob_create_market_order _ order _ => Some order
  | _ => None
  end.

Definition created_orders (tr : list event) : list MarketOrderArgs := omap created_order tr.

(** The signed orders handed to [post_order], with their fill policy. *)
Definition posted_order (e : event) : option (ClobClient * string * OrderType) :=
  match e with
  | Clob_post_order client signed_order ot _ => Some (client, signed_order, ot)
  | _ => None
  end.

Definition posted_orders (tr : list event) : list (ClobClient * string * OrderType) :=
  omap posted_order tr.

(** The amounts announced by the dry-run preview. *)
Definition previewed_amount (e : event) : option Q :=
  match e with
  | Print (Dry_run_would_buy a _) => Some a
  | _ => None
  end.

Definition previewed_amounts (tr : list event) : list Q := omap previewed_amount tr.

(** What [raise_for_status] followed by [json] makes of a reply. *)
Inductive fetch_outcome (A : Type) :=
| Fetched (body : A)
| Refused (status_code : Z)
| Undecodable.
Arguments Fetched {A} body.
Arguments Refused {A} status_code.
Arguments Undecodable {A}.

Definition outcome_of {A} (r : reply A) : fetch_outcome A :=
  match r with
  | Success body => Fetched body
  | Response status_code body =>
    if is_error_status status_code then Refused status_code
    else match body with
         | Some body => Fetched body
         | None => Undecodable
         end
  end.

(** The status of a reply on which [raise_for_status] raises. *)
Definition refused {A} (r : reply A) : option Z :=
  match outcome_of r with
  | Refused status_code => Some status_code
  | _ => None
  end.

(** An HTTP read that came back with a status from 400 to 599. *)
Definition failed_fetch (e : event) : option Z :=
  match e with
  | Http_profile _ r => refused r
  | Http_positions _ _ r => refused r
  | Http_activity _ _ r => refused r
  | _ => None
  end.

Definition failed_fetches (tr : list event) : list Z := omap failed_fetch tr.

(** The status of a reply that is not a 2xx status. *)
Definition non_2xx {A} (r : reply A) : option Z :=
  match r with
  | Success _ => None
  | Response status_code _ =>
    if (200 <=? status_code) && (status_code <? 300) then None else Some status_code
  end.

(** An HTTP read that came back with a status outside 200 to 299. *)
Definition non_success_fetch (e : event) : option Z :=
  match e with
  | Http_profile _ r => non_2xx r
  | Http_positions _ _ r => non_2xx r
  | Http_activity _ _ r => non_2xx r
  | _ => None
  end.

Definition non_success_fetches (tr : list event) : list Z := omap non_success_fetch tr.

(** Everything that is not a printed line. *)
Definition network_event (e : event) : option event :=
  match e with Print _ => None | _ => Some e end.

Definition network_events (tr : list event) : list event := omap network_event tr.

(** ** The words of the specification *)

(** [title.startswith(PREFIX)] when the filter is on, with the empty title
    for an entry that has none. *)
Definition title_filter (cfg : config) (a : Activity.t) : bool :=
  if FILTER_BITCOIN_UP_DOWN cfg
  then startswith (default "" (Activity.title a)) (BITCOIN_UP_DOWN_PREFIX cfg)
  else true.

Definition is_trade (a : Activity.t) : bool := bool_decide (Activity.type a = Some "TRADE").

Definition is_buy (a : Activity.t) : bool := bool_decide (Activity.side a = Some "BUY").

(** "entry type is a trade, trade side is BUY, and the filter predicate
    holds". *)
Definition qualifies (cfg : config) (a : Activity.t) : bool :=
  is_trade a && is_buy a && title_filter cfg a.

(** "all of type trade whose (market_id, outcome_index) equals position_key". *)
Definition trade_of_position (k : PositionKey) (a : Activity.t) : Prop :=
  is_trade a = true ∧ activity_key a = Some k.

Global Instance trade_of_position_dec k a : Decision (trade_of_position k a).
Proof. unfold trade_of_position. apply _. Defined.

(** ** Variations of a run *)


(** The same world, except that the holdings request is answered by [r]. *)
Definition with_holdings (w : world) (r : reply (list Position.t)) : world := {|
  public_profile := public_profile w;
  positions := λ _ _, r;
  activity := activity w;
  new_client := new_client w;
  derive_api_key := derive_api_key w;
  create_market_order := create_market_order w;
  post_order := post_order w |}.


(** ** The decision of a run, from the replies *)

(** The body a read hands to the script, when it hands one. *)
Definition fetched {A} (r : reply A) : option A :=
  match outcome_of r with
  | Fetched body => Some body
  | _ => None
  end.

(** The trade a run takes as the target's latest bet. *)
Definition latest_of (cfg : config) (w : world) : option Activity.t :=
  feed ← fetched (activity w 0 (TARGET_ADDRESS cfg) 20);
  get_latest_bet_loop cfg feed.

(** Whether the history step of a run, for the position key [k], goes
    through: the read hands over a body and every row can be displayed. *)
Definition history_shown (cfg : config) (w : world) (k : PositionKey) : bool :=
  if SHOW_TARGET_POSITION_BETS cfg then
    match fetched (activity w 1 (TARGET_ADDRESS cfg) (TARGET_POSITION_BETS_LIMIT cfg)) with
    | Some feed =>
      forallb row_displayable
        (enumerate_from_1 (fold_left (same_position_step k.1 k.2) feed []))
    | None => false
    end
  else true.

(** Which decision a run reports, computed from the configuration and the
    replies alone; [None] when the run ends before deciding.  Lemma
    [decision_run] shows that [main] reports exactly this. *)
Definition run_decision (cfg : config) (w : world) : option CopyDecision :=
  if bool_decide (PRIVATE_KEY cfg = "") then None else
  _ ← fetched (public_profile w (TARGET_ADDRESS cfg));
  feed ← fetched (activity w 0 (TARGET_ADDRESS cfg) 20);
  match get_latest_bet_loop cfg feed with
  | None => Some NoQualifyingActivity
  | Some latest =>
    _ ← Activity.title latest;
    _ ← Activity.outcome latest;
    target_size ← Activity.size latest;
    price ← Activity.price latest;
    if negb (number_fits target_size && number_fits (times_100 price)) then None else
    k ← activity_key latest;
    if negb (history_shown cfg w k) then None else
    my_positions ← fetched (positions w (FUNDER_ADDRESS cfg) 0);
    Some (if already_has_position my_positions k.1 k.2 then AlreadyHeld else PlaceOrder)
  end.


(** ** Reading the environment *)

(** [os.environ] is a map from names to values.  Values are taken to be
    ASCII text; on such text [str.strip] removes the characters below from
    both ends and [str.lower] maps [A]-[Z] to [a]-[z]. *)
Definition is_whitespace (c : ascii) : bool :=
  let n := nat_of_ascii c in
  ((9 <=? n) && (n <=? 13) || (28 <=? n) && (n <=? 32))%nat.

Fixpoint lstrip (s : string) : string :=
  match s with
  | EmptyString => EmptyString
  | String c s' => if is_whitespace c then lstrip s' else s
  end.

Fixpoint rstrip (s : string) : string :=
  match s with
  | EmptyString => EmptyString
  | String c s' =>
    match rstrip s' with
    | EmptyString => if is_whitespace c then EmptyString else String c EmptyString
    | r => String c r
    end
  end.

(** [s.strip()] *)
Definition strip (s : string) : string := lstrip (rstrip s).

Definition lower_char (c : ascii) : ascii :=
  let n := nat_of_ascii c in
  if ((65 <=? n) && (n <=? 90))%nat then ascii_of_nat (n + 32) else c.

(** [s.lower()] *)
Fixpoint lower (s : string) : string :=
  match s with
  | EmptyString => EmptyString
  | String c s' => String (lower_char c) (lower s')
  end.

Definition env_bool (environ : gmap string string) (name : string) (default : bool) : bool :=
  match environ !! name with
  | None => default
  | Some value =>
    bool_decide (lower (strip value) ∈ ({[ "1"; "true"; "yes"; "on" ]} : gset string))
  end.

(** Text made of 7-bit characters only. *)
Fixpoint ascii_only (s : string) : bool :=
  match s with
  | EmptyString => true
  | String c s' => (nat_of_ascii c <? 128)%nat && ascii_only s'
  end.

Fixpoint all_whitespace (s : string) : bool :=
  match s with
  | EmptyString => true
  | String c s' => is_whitespace c && all_whitespace s'
  end.

(** The same configuration with the title filter switched off. *)
Definition without_title_filter (cfg : config) : config := {|
  TARGET_ADDRESS := TARGET_ADDRESS cfg;
  FUNDER_ADDRESS := FUNDER_ADDRESS cfg;
  PRIVATE_KEY := PRIVATE_KEY cfg;
  SIGNATURE_TYPE := SIGNATURE_TYPE cfg;
  BET_AMOUNT := BET_AMOUNT cfg;
  DRY_RUN := DRY_RUN cfg;
  FILTER_BITCOIN_UP_DOWN := false;
  BITCOIN_UP_DOWN_PREFIX := BITCOIN_UP_DOWN_PREFIX cfg;
  SHOW_TARGET_POSITION_BETS := SHOW_TARGET_POSITION_BETS cfg;
  TARGET_POSITION_BETS_LIMIT := TARGET_POSITION_BETS_LIMIT cfg |}.

(** ** More readings of a run *)

(** The HTTP reads of a trace. *)
Definition http_read (e : event) : option event :=
  match e with
  | Http_profile _ _ | Http_positions _ _ _ | Http_activity _ _ _ => Some e
  | _ => None
  end.

Definition http_reads (tr : list event) : list event := omap http_read tr.

(** The "Done! Bought" reports of a trace. *)
Definition bought_report (e : event) : option (Q * string) :=
  match e with
  | Print (Done_bought a o) => Some (a, o)
  | _ => None
  end.

Definition bought_reports (tr : list event) : list (Q * string) := omap bought_report tr.

(** How the calls to [post_order] ended. *)
Definition post_result (e : event) : option bool :=
  match e with
  | Clob_post_order _ _ _ ok => Some ok
  | _ => None
  end.

Definition post_results (tr : list event) : list bool := omap post_result tr.

(** The client a call to the order client is made on. *)
Definition client_of (e : event) : option ClobClient :=
  match e with
  | Clob_derive_api_key client _ | Clob_create_market_order client _ _
  | Clob_post_order client _ _ _ => Some client
  | _ => None
  end.

(** The error lines of the top-level handler. *)
Definition error_report (e : event) : option message :=
  match e with
  | Print (Api_error s) => Some (Api_error s)
  | Print (Error x) => Some (Error x)
  | _ => None
  end.

Definition error_reports (tr : list event) : list message := omap error_report tr.

(** The same world, except that the profile lookup is answered by [r]. *)
Definition with_profile (w : world) (r : reply Profile.t) : world := {|
  public_profile := λ _, r;
  positions := positions w;
  activity := activity w;
  new_client := new_client w;
  derive_api_key := derive_api_key w;
  create_market_order := create_market_order w;
  post_order := post_order w |}.

(** The profile, activity and holdings requests of a trace, each with its
    parameters and the reply it got. *)
Definition profile_read (e : event) : option (string * reply Profile.t) :=
  match e with
  | Http_profile address r => Some (address, r)
  | _ => None
  end.

Definition profile_reads (tr : list event) : list (string * reply Profile.t) :=
  omap profile_read tr.

Definition activity_read (e : event) : option (string * Z * reply (list Activity.t)) :=
  match e with
  | Http_activity user limit r => Some (user, limit, r)
  | _ => None
  end.

Definition activity_reads (tr : list event) : list (string * Z * reply (list Activity.t)) :=
  omap activity_read tr.

Definition positions_read (e : event) : option (string * Z * reply (list Position.t)) :=
  match e with
  | Http_positions user sizeThreshold r => Some (user, sizeThreshold, r)
  | _ => None
  end.

Definition positions_reads (tr : list event) : list (string * Z * reply (list Position.t)) :=
  omap positions_read tr.

(** ** Sample data *)

Module Sample.

Definition cfg (dry_run : bool) : config := {|
  TARGET_ADDRESS := "0xtarget";
  FUNDER_ADDRESS := "0xfunder";
  PRIVATE_KEY := "0xkey";
  SIGNATURE_TYPE := 1;
  BET_AMOUNT := QArith_base.Qmake 5 2;
  DRY_RUN := dry_run;
  FILTER_BITCOIN_UP_DOWN := true;
  BITCOIN_UP_DOWN_PREFIX := "Bitcoin Up or Down";
  SHOW_TARGET_POSITION_BETS := true;
  TARGET_POSITION_BETS_LIMIT := 100 |}.

Definition trade (side title market : string) (idx : Z) (asset : string) : Activity.t :=
  Activity.mk (Some "TRADE") (Some side) (Some title) (Some market) (Some idx)
    (Some "Up") (Some (JInt 10)) (Some (JFloat (QArith_base.Qmake 1 2))) (Some asset).

Definition redeem : Activity.t :=
  Activity.mk (Some "REDEEM") None None (Some "M0") None None None None None.

Definition election : Activity.t := trade "BUY" "Election Winner 2024" "M9" 0 "A9".
Definition btc_buy : Activity.t := trade "BUY" "Bitcoin Up or Down - Nov 3" "M1" 0 "A1".
Definition btc_sell : Activity.t := trade "SELL" "Bitcoin Up or Down - Nov 3" "M1" 0 "A1".
Definition btc_other : Activity.t := trade "BUY" "Bitcoin Up or Down - Nov 2" "M2" 1 "A2".

Definition feed : list Activity.t := [redeem; election; btc_sell; btc_buy; btc_other].

Definition held : Position.t := Position.mk "M1" 0 "Bitcoin Up or Down - Nov 3" "Up".
Definition unrelated : Position.t := Position.mk "M1" 1 "Bitcoin Up or Down - Nov 3" "Down".

Definition w (feed : list Activity.t) (holdings : reply (list Position.t)) : world := {|
  public_profile := λ _, Success (Profile.mk None (Some "whale"));
  positions := λ _ _, holdings;
  activity := λ _ _ _, Success feed;
  new_client := λ _, true;
  derive_api_key := λ _, Some "creds";
  create_market_order := λ _ _, Some "signed";
  post_order := λ _ _ _, true |}.

End Sample.

(** * Properties *)

(** ** The model on sample inputs *)

Example key_example : key "0xabc" 1 = "0xabc_1" ∧ key "m" (-12) = "m_-12" ∧ key "" 0 = "_0".
Proof. vm_compute. done. Qed.

Example already_has_position_example :
  already_has_position
    [Position.mk "M1" 0 "t" "Up"; Position.mk "M2" 1 "u" "Down"] "M2" 1 = true
  ∧ already_has_position
    [Position.mk "M1" 0 "t" "Up"; Position.mk "M2" 1 "u" "Down"] "M2" 0 = false.
Proof. vm_compute. done. Qed.

Example scenario_D : get_latest_bet_loop (Sample.cfg true) Sample.feed = Some Sample.btc_buy.
Proof. vm_compute. done. Qed.

Example scenario_A_live :
  let r := run (Sample.cfg false) (Sample.w Sample.feed (Success [Sample.unrelated])) in
  r.1 = Return tt ∧ decision r.2 = Some PlaceOrder
  ∧ clob_calls r.2 =
    let client := {| host := CLOB_API; client_key := "0xkey"; chain_id := 137;
                     signature_type := 1; funder := "0xfunder"; creds := None |} in
    let client' := {| host := CLOB_API; client_key := "0xkey"; chain_id := 137;
                     signature_type := 1; funder := "0xfunder"; creds := Some "creds" |} in
    [Clob_derive_api_key client (Some "creds");
     Clob_create_market_order client'
       {| token_id := "A1"; amount := QArith_base.Qmake 5 2; order_side := "BUY";
          order_type := FOK |} (Some "signed");
     Clob_post_order client' "signed" FOK true].
Proof. vm_compute. done. Qed.

Example scenario_A_dry :
  let r := run (Sample.cfg true) (Sample.w Sample.feed (Success [])) in
  r.1 = Return tt ∧ decision r.2 = Some PlaceOrder
  ∧ last r.2 = Some (Print (Dry_run_would_buy (QArith_base.Qmake 5 2) "Up")).
Proof. vm_compute. done. Qed.

Example scenario_B :
  let r := run (Sample.cfg false) (Sample.w Sample.feed (Success [Sample.unrelated; Sample.held])) in
  r.1 = Return tt ∧ decision r.2 = Some AlreadyHeld ∧ clob_calls r.2 = [].
Proof. vm_compute. done. Qed.

Example scenario_C :
  let r := run (Sample.cfg false)
             (Sample.w [Sample.redeem; Sample.btc_sell] (Success [])) in
  r.1 = Return tt ∧ decision r.2 = Some NoQualifyingActivity
  ∧ network_events r.2
    = [Http_profile "0xtarget" (Success (Profile.mk None (Some "whale")));
       Http_activity "0xtarget" 20 (Success [Sample.redeem; Sample.btc_sell])].
Proof. vm_compute. done. Qed.

Example scenario_fetch_failure :
  run (Sample.cfg false) (Sample.w Sample.feed (Response 503 None))
  = (Raise (HTTPError 503),
     (run (Sample.cfg false) (Sample.w Sample.feed (Response 503 None))).2)
  ∧ decision (run (Sample.cfg false) (Sample.w Sample.feed (Response 503 None))).2 = None.
Proof. vm_compute. done. Qed.


(** ** The key encoding *)

Lemma occurs_app c s1 s2 : occurs c (s1 +:+ s2) = occurs c s1 || occurs c s2.
Proof.
  induction s1 as [|a s1 IH]; [done|].
  change (String a s1 +:+ s2) with (String a (s1 +:+ s2)).
  simpl. by destruct (decide (a = c)).
Qed.

Lemma pretty_N_char_no_underscore x : pretty_N_char x ≠ "_"%char.
Proof. unfold pretty_N_char. by repeat case_match. Qed.

Lemma pretty_N_go_no_underscore x s :
  occurs "_" s = false → occurs "_" (pretty_N_go x s) = false.
Proof.
  revert s. induction (N.lt_wf_0 x) as [x _ IH]; intros s Hs.
  destruct (decide (x = 0)%N) as [->|Hx]; [by rewrite pretty_N_go_0|].
  rewrite pretty_N_go_step by lia.
  apply IH; [apply N.div_lt; lia|].
  simpl. destruct (decide _) as [E|_]; [|done].
  by destruct (pretty_N_char_no_underscore _ E).
Qed.

Lemma pretty_N_no_underscore (x : N) : occurs "_" (pretty x) = false.
Proof.
  unfold pretty, pretty_N. case_decide; [done|].
  by apply pretty_N_go_no_underscore.
Qed.

(** The decimal numeral of an integer never contains the separator. *)
Lemma pretty_Z_no_underscore (z : Z) : occurs "_" (pretty z) = false.
Proof.
  destruct z as [|p|p]; [done|..].
  - apply (pretty_N_no_underscore (N.pos p)).
  - change (pretty (Z.neg p)) with ("-" +:+ pretty (N.pos p)).
    rewrite occurs_app, pretty_N_no_underscore. done.
Qed.

(** A string splits in only one way at its last separator. *)
Lemma split_at_last_separator c1 c2 d1 d2 :
  occurs "_" d1 = false → occurs "_" d2 = false →
  c1 +:+ "_" +:+ d1 = c2 +:+ "_" +:+ d2 → c1 = c2 ∧ d1 = d2.
Proof.
  intros H1 H2. revert c2.
  induction c1 as [|a c1 IH]; intros [|b c2] E.
  - by simplify_eq/=.
  - change (String b c2 +:+ "_" +:+ d2) with (String b (c2 +:+ "_" +:+ d2)) in E.
    change ("" +:+ "_" +:+ d1) with (String "_" d1) in E.
    injection E as _ ->. rewrite occurs_app in H1.
    apply orb_false_elim in H1 as [_ H1]. done.
  - change (String a c1 +:+ "_" +:+ d1) with (String a (c1 +:+ "_" +:+ d1)) in E.
    change ("" +:+ "_" +:+ d2) with (String "_" d2) in E.
    injection E as _ <-. rewrite occurs_app in H2.
    apply orb_false_elim in H2 as [_ H2]. done.
  - change (String a c1 +:+ "_" +:+ d1) with (String a (c1 +:+ "_" +:+ d1)) in E.
    change (String b c2 +:+ "_" +:+ d2) with (String b (c2 +:+ "_" +:+ d2)) in E.
    injection E as -> E. destruct (IH _ E) as [-> ->]. done.
Qed.

(** [key] is injective on (string, integer) pairs. *)
Lemma key_inj c1 o1 c2 o2 : key c1 o1 = key c2 o2 → c1 = c2 ∧ o1 = o2.
Proof.
  unfold key. intros E.
  apply split_at_last_separator in E as [-> E]; auto using pretty_Z_no_underscore.
  split; [done|]. by apply (inj pretty).
Qed.

Lemma already_has_position_true (my_positions : list Position.t) (c : string) (o : Z) :
  already_has_position my_positions c o = true
  ↔ ∃ p, p ∈ my_positions ∧ position_key p = (c, o).
Proof.
  unfold already_has_position, position_key.
  rewrite bool_decide_eq_true, elem_of_list_to_set, list_elem_of_fmap.
  split.
  - intros (p & E & Hp). symmetry in E. apply key_inj in E as [Hc Ho].
    exists p. by rewrite Hc, Ho.
  - intros (p & Hp & [= <- <-]). eauto.
Qed.

(** C4. [already_has_position] answers true exactly when some position of
    the snapshot has the queried market identifier (equal as a string) and
    the queried outcome index (equal as an integer); in particular a pair
    that differs from every held pair in either component is never reported
    as held, so the string encoding of the keys merges no two pairs. *)
Theorem already_has_position_exact (my_positions : list Position.t) (c : string) (o : Z) :
  (already_has_position my_positions c o = true
   ↔ ∃ p, p ∈ my_positions ∧ Position.conditionId p = c ∧ Position.outcomeIndex p = o)
  ∧ ((∀ p, p ∈ my_positions → Position.conditionId p ≠ c ∨ Position.outcomeIndex p ≠ o)
     → already_has_position my_positions c o = false)
  ∧ (∀ c' o', key c' o' = key c o → c' = c ∧ o' = o).
Proof.
  split_and!.
  - rewrite already_has_position_true. unfold position_key.
    split; intros (p & Hp & E); exists p; (split; [done|]).
    + by injection E.
    + by destruct E as [-> ->].
  - intros Hno. apply not_true_iff_false. rewrite already_has_position_true.
    intros (p & Hp & [= Hc Ho]). destruct (Hno p Hp); done.
  - intros c' o'. apply key_inj.
Qed.

(** ** ActivityFeedReader: the scan of [get_latest_bet] *)

(** One turn of the loop: a qualifying entry is returned, any other is
    skipped. *)
Lemma get_latest_bet_loop_cons cfg a feed :
  get_latest_bet_loop cfg (a :: feed)
  = if qualifies cfg a then Some a else get_latest_bet_loop cfg feed.
Proof.
  unfold qualifies, title_filter, is_trade, is_buy. simpl.
  destruct (bool_decide (Activity.type a = _)), (bool_decide (Activity.side a = _)),
    (FILTER_BITCOIN_UP_DOWN cfg); simpl; try done.
  by destruct (startswith _ _).
Qed.

Lemma get_latest_bet_loop_Some cfg feed a :
  get_latest_bet_loop cfg feed = Some a
  ↔ ∃ before after, feed = before ++ a :: after
      ∧ Forall (λ x, qualifies cfg x = false) before ∧ qualifies cfg a = true.
Proof.
  induction feed as [|x feed IH].
  - split; [done|]. intros ([|??] & ? & ? & _); done.
  - rewrite get_latest_bet_loop_cons. destruct (qualifies cfg x) eqn:Hx.
    + split.
      * intros [= <-]. by exists [], feed.
      * intros ([|y before] & after & E & Hbefore & Ha); simplify_eq/=; [done|].
        apply Forall_cons in Hbefore as [? _]. congruence.
    + rewrite IH. split.
      * intros (before & after & -> & Hbefore & Ha).
        exists (x :: before), after. by repeat constructor.
      * intros ([|y before] & after & E & Hbefore & Ha); simplify_eq/=; [congruence|].
        apply Forall_cons in Hbefore as [_ ?]. eauto.
Qed.

Lemma get_latest_bet_loop_None cfg feed :
  get_latest_bet_loop cfg feed = None ↔ Forall (λ x, qualifies cfg x = false) feed.
Proof.
  induction feed as [|x feed IH]; [by split|].
  rewrite get_latest_bet_loop_cons, Forall_cons. destruct (qualifies cfg x).
  - split; [done|]. by intros [? _].
  - rewrite IH. split; [done|]. by intros [_ ?].
Qed.

(** C3. On a successfully fetched feed, [get_latest_bet] returns the entry
    that splits the feed into a part without qualifying entries, the entry
    itself, which qualifies (trade, BUY, title filter), and a rest that is
    not looked at: the first qualifying entry in feed order.  It returns
    [None] exactly when no entry of the feed qualifies, which is the case
    for every feed made only of non-trades and of trades that are not
    BUYs. *)
Theorem get_latest_bet_first_qualifying
    (cfg : config) (w : world) (wallet_address : string) (tr : list event) :
  ∀ feed, activity w (activity_requests tr) wallet_address 20 = Success feed →
    ∃ found,
      get_latest_bet cfg w wallet_address tr
      = (Return found, tr ++ [Http_activity wallet_address 20 (Success feed)])
      ∧ (∀ a, found = Some a
           ↔ ∃ before after, feed = before ++ a :: after
               ∧ Forall (λ x, qualifies cfg x = false) before ∧ qualifies cfg a = true)
      ∧ (found = None ↔ Forall (λ x, qualifies cfg x = false) feed)
      ∧ (Forall (λ x, is_trade x = false ∨ is_buy x = false) feed → found = None).
Proof.
  intros feed Hfeed. exists (get_latest_bet_loop cfg feed).
  unfold get_latest_bet, bind, requests_get_activity. rewrite Hfeed. simpl.
  split_and!; [done|..].
  - intros a. apply get_latest_bet_loop_Some.
  - apply get_latest_bet_loop_None.
  - intros Hall. apply get_latest_bet_loop_None.
    eapply Forall_impl; [exact Hall|]. intros x. unfold qualifies.
    intros [-> | ->]; [done|]. by destruct (is_trade x).
Qed.

Lemma get_latest_bet_first_qualifying_witness :
  ∃ found,
    get_latest_bet (Sample.cfg true) (Sample.w Sample.feed (Success [])) "0xtarget" []
    = (Return found, [] ++ [Http_activity "0xtarget" 20 (Success Sample.feed)])
    ∧ found = Some Sample.btc_buy.
Proof.
  destruct (get_latest_bet_first_qualifying (Sample.cfg true)
              (Sample.w Sample.feed (Success [])) "0xtarget" [] Sample.feed eq_refl)
    as (found & Hrun & Hsome & _).
  exists found. split; [exact Hrun|].
  apply Hsome. exists [Sample.redeem; Sample.election; Sample.btc_sell], [Sample.btc_other].
  split; [reflexivity|]. split; [|vm_compute; reflexivity].
  repeat constructor.
Defined.

Lemma startswith_empty p : startswith "" p = true → p = "".
Proof. by destruct p. Qed.

Lemma get_latest_bet_qualifies cfg w wallet_address tr a tr' :
  get_latest_bet cfg w wallet_address tr = (Return (Some a), tr') → qualifies cfg a = true.
Proof.
  intros Hrun.
  assert (∃ feed, get_latest_bet_loop cfg feed = Some a) as (feed & Hloop).
  { revert Hrun. unfold get_latest_bet, bind, requests_get_activity.
    destruct (activity w _ _ _) as [feed|s [feed|]]; simpl;
      try destruct (is_error_status s); simpl; try done.
    all: intros [= Hloop _]; by exists feed. }
  apply get_latest_bet_loop_Some in Hloop.
  by destruct Hloop as (_ & _ & _ & _ & ?).
Qed.

(** C10. With the title filter on and a non-empty prefix, an entry without
    a title is read as having the empty title and is skipped by the scan;
    hence every trade that [get_latest_bet] returns has a title, and that
    title starts with the prefix. *)
Theorem returned_title_has_prefix (cfg : config) :
  FILTER_BITCOIN_UP_DOWN cfg = true → BITCOIN_UP_DOWN_PREFIX cfg ≠ "" →
  (∀ a feed, Activity.title a = None →
     get_latest_bet_loop cfg (a :: feed) = get_latest_bet_loop cfg feed)
  ∧ (∀ w wallet_address tr a tr',
       get_latest_bet cfg w wallet_address tr = (Return (Some a), tr') →
       ∃ title, Activity.title a = Some title
                ∧ startswith title (BITCOIN_UP_DOWN_PREFIX cfg) = true).
Proof.
  intros Hon Hprefix.
  assert (∀ a, Activity.title a = None → qualifies cfg a = false) as Hskip.
  { intros a Ha. unfold qualifies, title_filter. rewrite Hon, Ha.
    destruct (startswith (default "" None) _) eqn:E; [|by rewrite andb_false_r].
    by apply startswith_empty in E. }
  split.
  - intros a feed Ha. by rewrite get_latest_bet_loop_cons, Hskip.
  - intros w wallet_address tr a tr' Hrun.
    apply get_latest_bet_qualifies in Hrun as Hq.
    destruct (Activity.title a) as [title|] eqn:Ha; [|by rewrite Hskip in Hq].
    exists title. split; [done|].
    unfold qualifies, title_filter in Hq. rewrite Hon, Ha in Hq.
    by apply andb_prop in Hq as [_ ?].
Qed.

Lemma returned_title_has_prefix_witness :
  (∀ a feed, Activity.title a = None →
     get_latest_bet_loop (Sample.cfg true) (a :: feed)
     = get_latest_bet_loop (Sample.cfg true) feed)
  ∧ (∀ w wallet_address tr a tr',
       get_latest_bet (Sample.cfg true) w wallet_address tr = (Return (Some a), tr') →
       ∃ title, Activity.title a = Some title
                ∧ startswith title "Bitcoin Up or Down" = true).
Proof. apply (returned_title_has_prefix (Sample.cfg true)); [reflexivity|discriminate]. Defined.

(** ** PositionHistoryCollector *)

Lemma same_position_step_spec c o acc a :
  same_position_step c o acc a
  = if decide (trade_of_position (c, o) a) then acc ++ [a] else acc.
Proof.
  unfold same_position_step. case_decide as H.
  - destruct H as [Ht Hk]. unfold is_trade in Ht. rewrite Ht.
    unfold activity_key in Hk.
    destruct (Activity.conditionId a), (Activity.outcomeIndex a); simplify_eq.
    by rewrite !bool_decide_eq_true_2.
  - destruct (_ && _ && _) eqn:E; [|done]. destruct H.
    apply andb_prop in E as [E E3]. apply andb_prop in E as [E1 E2].
    apply bool_decide_eq_true in E1, E2, E3.
    split; [by apply bool_decide_eq_true|]. unfold activity_key. by rewrite E2, E3.
Qed.

Lemma fold_same_position_step c o feed acc :
  fold_left (same_position_step c o) feed acc
  = acc ++ filter (trade_of_position (c, o)) feed.
Proof.
  revert acc. induction feed as [|a feed IH]; intros acc; simpl.
  - by rewrite app_nil_r.
  - rewrite IH, same_position_step_spec, filter_cons.
    case_decide; [|done]. by rewrite <-app_assoc.
Qed.

Lemma filter_none {A} (P : A → Prop) `{∀ x, base.Decision (P x)} (l : list A) :
  (∀ x, x ∈ l → ¬ P x) → filter P l = [].
Proof.
  induction l as [|x l IH]; intros Hno; [done|].
  rewrite filter_cons_False by (apply Hno; left).
  apply IH. intros y Hy. apply Hno. by right.
Qed.

(** C7. On a successfully fetched window, [get_target_bets_for_position]
    returns exactly the entries of the window that are trades with the
    given (market, outcome) key, in feed order; it asks the feed for
    [limit] entries and takes nothing from outside the window.  When no
    entry of the window has the key, it returns the empty list, without
    raising. *)
Theorem get_target_bets_for_position_exact
    (w : world) (wallet_address condition_id : string) (outcome_index limit : Z)
    (tr : list event) :
  ∀ feed, activity w (activity_requests tr) wallet_address limit = Success feed →
    get_target_bets_for_position w wallet_address condition_id outcome_index limit tr
    = (Return (filter (trade_of_position (condition_id, outcome_index)) feed),
       tr ++ [Http_activity wallet_address limit (Success feed)])
    ∧ ((∀ a, a ∈ feed → activity_key a ≠ Some (condition_id, outcome_index)) →
       get_target_bets_for_position w wallet_address condition_id outcome_index limit tr
       = (Return [], tr ++ [Http_activity wallet_address limit (Success feed)])).
Proof.
  intros feed Hfeed.
  assert (get_target_bets_for_position w wallet_address condition_id outcome_index limit tr
    = (Return (filter (trade_of_position (condition_id, outcome_index)) feed),
       tr ++ [Http_activity wallet_address limit (Success feed)])) as Hrun.
  { unfold get_target_bets_for_position, bind, requests_get_activity.
    rewrite Hfeed. simpl. unfold ret. by rewrite fold_same_position_step. }
  split; [done|]. intros Habsent. rewrite Hrun. do 2 f_equal.
  apply filter_none. intros a Ha [_ Hkey]. by apply (Habsent a).
Qed.

Lemma get_target_bets_for_position_exact_witness :
  get_target_bets_for_position (Sample.w Sample.feed (Success [])) "0xtarget" "M1" 0 100 []
  = (Return [Sample.btc_sell; Sample.btc_buy],
     [Http_activity "0xtarget" 100 (Success Sample.feed)]).
Proof.
  exact (proj1 (get_target_bets_for_position_exact
                  (Sample.w Sample.feed (Success [])) "0xtarget" "M1" 0 100 []
                  Sample.feed eq_refl)).
Defined.

(** ** Running the computations *)

Arguments display_name : simpl never.
Arguments take_chars : simpl never.
Arguments already_has_position : simpl never.
Arguments get_latest_bet_loop : simpl never.
Arguments enumerate_from_1 : simpl never.
Arguments fits_float : simpl never.
Arguments times_100 : simpl never.

Lemma for_each_print {A} (f : A → message) (l : list A) (tr : list event) :
  for_each l (λ x, print (f x)) tr = (Return tt, tr ++ (Print ∘ f <$> l)).
Proof.
  revert tr. induction l as [|x l IH]; intros tr; simpl.
  - by rewrite app_nil_r.
  - unfold bind, print, emit at 1. rewrite IH, <-app_assoc. done.
Qed.

(** [raise_for_status] followed by [json]. *)
Lemma fetch_run {A} (r : reply A) tr :
  (let* _ := raise_for_status r in json r) tr =
  match outcome_of r with
  | Fetched body => (Return body, tr)
  | Refused s => (Raise (HTTPError s), tr)
  | Undecodable => (Raise JSONDecodeError, tr)
  end.
Proof.
  unfold bind, raise_for_status, json, outcome_of.
  destruct r as [body|s [body|]]; simpl; [done|..]; by destruct (is_error_status s).
Qed.

Lemma get_profile_name_run w a tr :
  get_profile_name w a tr =
  let r := public_profile w a in
  match outcome_of r with
  | Fetched p => (Return (display_name p a), tr ++ [Http_profile a r])
  | Refused s => (Raise (HTTPError s), tr ++ [Http_profile a r])
  | Undecodable => (Raise JSONDecodeError, tr ++ [Http_profile a r])
  end.
Proof.
  unfold get_profile_name, requests_get_profile, bind, raise_for_status, json, outcome_of.
  simpl. destruct (public_profile w a) as [p|s [p|]]; simpl; [done|..];
    by destruct (is_error_status s).
Qed.

Lemma get_latest_bet_run cfg w a tr :
  get_latest_bet cfg w a tr =
  let r := activity w (activity_requests tr) a 20 in
  match outcome_of r with
  | Fetched feed => (Return (get_latest_bet_loop cfg feed), tr ++ [Http_activity a 20 r])
  | Refused s => (Raise (HTTPError s), tr ++ [Http_activity a 20 r])
  | Undecodable => (Raise JSONDecodeError, tr ++ [Http_activity a 20 r])
  end.
Proof.
  unfold get_latest_bet, requests_get_activity, bind, raise_for_status, json, outcome_of.
  simpl. destruct (activity w _ a 20) as [feed|s [feed|]]; simpl; [done|..];
    by destruct (is_error_status s).
Qed.

Lemma get_target_bets_for_position_run w a c o limit tr :
  get_target_bets_for_position w a c o limit tr =
  let r := activity w (activity_requests tr) a limit in
  match outcome_of r with
  | Fetched feed =>
    (Return (fold_left (same_position_step c o) feed []), tr ++ [Http_activity a limit r])
  | Refused s => (Raise (HTTPError s), tr ++ [Http_activity a limit r])
  | Undecodable => (Raise JSONDecodeError, tr ++ [Http_activity a limit r])
  end.
Proof.
  unfold get_target_bets_for_position, requests_get_activity, bind, raise_for_status, json,
    outcome_of.
  simpl. destruct (activity w _ a limit) as [feed|s [feed|]]; simpl; [done|..];
    by destruct (is_error_status s).
Qed.

Lemma get_positions_run w a tr :
  get_positions w a tr =
  let r := positions w a 0 in
  match outcome_of r with
  | Fetched ps => (Return ps, tr ++ [Http_positions a 0 r])
  | Refused s => (Raise (HTTPError s), tr ++ [Http_positions a 0 r])
  | Undecodable => (Raise JSONDecodeError, tr ++ [Http_positions a 0 r])
  end.
Proof.
  unfold get_positions, requests_get_positions, bind, raise_for_status, json, outcome_of.
  simpl. destruct (positions w a 0) as [ps|s [ps|]]; simpl; [done|..];
    by destruct (is_error_status s).
Qed.

Lemma format_f_run x tr :
  format_f x tr = (if number_fits x then Return tt else Raise OverflowError, tr).
Proof. destruct x as [z|q]; simpl; [|done]. by destruct (fits_float z). Qed.

Lemma print_target_bet_run row tr :
  print_target_bet row tr =
  if row_displayable row
  then (Return tt, tr ++ [Print (target_bet_message row)])
  else (Raise OverflowError, tr).
Proof.
  destruct row as [idx bet].
  unfold print_target_bet, row_displayable, target_bet_message, bind, to_float. simpl.
  destruct (default (JInt 0) (Activity.size bet)) as [z|q],
    (default (JInt 0) (Activity.price bet)) as [z'|q']; simpl;
    repeat match goal with |- context [fits_float ?x] => destruct (fits_float x) end; done.
Qed.

(** The loop over the rows of the history prints the rows up to the first
    one that cannot be displayed, and raises there. *)
Lemma for_each_target_bets rows tr :
  for_each rows print_target_bet tr =
  (if forallb row_displayable rows then Return tt else Raise OverflowError,
   tr ++ (Print ∘ target_bet_message <$> shown_rows rows)).
Proof.
  revert tr. induction rows as [|row rows IH]; intros tr; simpl.
  - by rewrite app_nil_r.
  - unfold bind. rewrite print_target_bet_run.
    destruct (row_displayable row); simpl.
    + by rewrite IH, <-app_assoc.
    + by rewrite app_nil_r.
Qed.

Lemma enumerate_from_1_nil : enumerate_from_1 [] = [].
Proof. done. Qed.

Opaque enumerate_from_1.

Lemma get_clob_client_run cfg w tr :
  get_clob_client cfg w tr =
  let client := {| host := CLOB_API; client_key := PRIVATE_KEY cfg; chain_id := 137;
                   signature_type := SIGNATURE_TYPE cfg; funder := FUNDER_ADDRESS cfg;
                   creds := None |} in
  if new_client w client then
    let r := derive_api_key w client in
    match r with
    | Some c =>
      (Return {| host := CLOB_API; client_key := PRIVATE_KEY cfg; chain_id := 137;
                 signature_type := SIGNATURE_TYPE cfg; funder := FUNDER_ADDRESS cfg;
                 creds := Some c |}, tr ++ [Clob_derive_api_key client r])
    | None => (Raise ClobException, tr ++ [Clob_derive_api_key client r])
    end
  else (Raise ClobException, tr).
Proof.
  unfold get_clob_client, bind, emit. simpl.
  destruct (new_client w _); simpl; [|done]. by destruct (derive_api_key w _).
Qed.

Lemma place_bet_run w client token amt tr :
  place_bet w client token amt tr =
  let order := {| token_id := token; amount := amt; order_side := BUY; order_type := FOK |} in
  let r := create_market_order w client order in
  match r with
  | Some signed_order =>
    let ok := post_order w client signed_order FOK in
    (if ok then Return tt else Raise ClobException,
     tr ++ [Clob_create_market_order client order r;
            Clob_post_order client signed_order FOK ok])
  | None => (Raise ClobException, tr ++ [Clob_create_market_order client order r])
  end.
Proof.
  unfold place_bet, bind, emit. simpl. destruct (create_market_order w _ _); [|done].
  simpl. rewrite <-app_assoc. by destruct (post_order w _ _ _).
Qed.

Lemma print_run m tr : print m tr = (Return tt, tr ++ [Print m]).
Proof. done. Qed.

Ltac run_rewrite :=
  first
    [ rewrite print_run | rewrite get_profile_name_run | rewrite get_latest_bet_run
    | rewrite get_target_bets_for_position_run | rewrite get_positions_run
    | rewrite get_clob_client_run | rewrite place_bet_run | rewrite for_each_print
    | rewrite format_f_run | rewrite for_each_target_bets
    | rewrite enumerate_from_1_nil ].

Ltac run_case :=
  match goal with
  | |- context [match ?x with _ => _ end] =>
    lazymatch x with
    | context [match _ with _ => _ end] => fail
    | _ => destruct x eqn:?
    end
  end.

Ltac run_main :=
  unfold run, main;
  repeat first
    [ run_rewrite
    | progress unfold bind, ret, raise, getitem, activity_requests
    | progress cbn [fst snd app List.filter is_activity_request length]
    | progress cbv beta zeta
    | run_case ];
  rewrite <-?app_assoc; cbn [app].

(** Printed rows of a loop carry no decision, request or client call. *)
Lemma omap_prints {A B} (g : event → option B) (f : A → message) (l : list A) :
  (∀ x, g (Print (f x)) = None) → omap g (Print ∘ f <$> l) = [].
Proof. intros Hg. induction l as [|x l IH]; simpl; [done|]. by rewrite Hg. Qed.

Ltac use_equations :=
  repeat first
    [ progress simpl
    | rewrite enumerate_from_1_nil
    | match goal with H : ?x = _ |- context [?x] => rewrite H end ].

Ltac read_trace :=
  unfold decision, clob_calls, created_orders, posted_orders, previewed_amounts,
    failed_fetches, network_events;
  repeat first
    [ progress simpl
    | progress unfold refused
    | rewrite omap_app
    | rewrite omap_prints by done
    | match goal with
      | H : outcome_of ?r = _ |- context [outcome_of ?r] => rewrite H
      end ].

(** [main] reports the decision that [run_decision] computes. *)
Lemma decision_run cfg w : decision (run cfg w).2 = run_decision cfg w.
Proof.
  unfold run_decision, history_shown, activity_key, fetched.
  run_main; read_trace.
  all: use_equations.
  all: try done.
  all: by repeat case_match.
Qed.
(** ** Properties of a run *)

(** The order client is only called after the run decided to buy. *)
Lemma clob_calls_after_decision cfg w :
  decision (run cfg w).2 ≠ Some PlaceOrder → clob_calls (run cfg w).2 = [].
Proof. run_main; read_trace; done. Qed.

(** A run that reports the position as held returns normally. *)
Lemma run_AlreadyHeld cfg w :
  decision (run cfg w).2 = Some AlreadyHeld → (run cfg w).1 = Return tt.
Proof. run_main; read_trace; done. Qed.

Lemma fetched_Success {A} (body : A) : fetched (Success body) = Some body.
Proof. done. Qed.

Lemma outcome_of_Refused {A} (r : reply A) s :
  outcome_of r = Refused s → is_error_status s = true.
Proof.
  unfold outcome_of. destruct r as [body|s' [body|]]; try done;
    destruct (is_error_status s') eqn:E; try done; by intros [= <-].
Qed.

Lemma latest_of_Some cfg w latest :
  latest_of cfg w = Some latest
  ↔ ∃ feed, fetched (activity w 0 (TARGET_ADDRESS cfg) 20) = Some feed
            ∧ get_latest_bet_loop cfg feed = Some latest.
Proof.
  unfold latest_of. destruct (fetched (activity w 0 _ 20)) as [feed|]; simpl.
  - split; [by exists feed|]. by intros (? & [= <-] & ?).
  - split; [done|]. by intros (? & ? & _).
Qed.

(** What a run that decides to buy has seen. *)
Lemma run_decision_PlaceOrder cfg w :
  run_decision cfg w = Some PlaceOrder →
  ∃ latest k my_positions,
    latest_of cfg w = Some latest ∧ activity_key latest = Some k
    ∧ history_shown cfg w k = true
    ∧ fetched (positions w (FUNDER_ADDRESS cfg) 0) = Some my_positions
    ∧ already_has_position my_positions k.1 k.2 = false.
Proof.
  unfold run_decision, latest_of.
  destruct (bool_decide _); [done|].
  destruct (fetched (public_profile w _)); simpl; [|done].
  destruct (fetched (activity w 0 _ 20)) as [feed|]; simpl; [|done].
  destruct (get_latest_bet_loop cfg feed) as [latest|]; [|done].
  destruct (Activity.title latest), (Activity.outcome latest), (Activity.size latest),
    (Activity.price latest); simpl; try done.
  destruct (negb _); [done|].
  destruct (activity_key latest) as [k|] eqn:Hk; simpl; [|done].
  destruct (history_shown cfg w k) eqn:Hshown; simpl; [|done].
  destruct (fetched (positions w _ 0)) as [my_positions|] eqn:Hpos; simpl; [|done].
  destruct (already_has_position _ _ _) eqn:Hheld; simpl; [done|].
  intros _. exists latest, k, my_positions. by split_and!.
Qed.




(** C2, as stated, does not hold: with the default configuration, which is
    a dry run without a signing key, the run exits on the missing key
    before any request and reports no decision, although the same world
    leads a configured dry run to a decision. *)
Lemma dry_run_without_key_exits :
  let w := Sample.w Sample.feed (Success []) in
  DRY_RUN default_config = true
  ∧ PRIVATE_KEY default_config = ""
  ∧ run default_config w = (Raise (SystemExit missing_key_message), [])
  ∧ decision (run default_config w).2 = None
  ∧ decision (run (Sample.cfg true) w).2 = Some PlaceOrder.
Proof. vm_compute. done. Qed.

(** C2, amended. A missing signing key is fatal in every run, dry or live:
    [main] raises [SystemExit] before any request, client call or printed
    line, whatever [DRY_RUN] says, and the top-level handler lets the exit
    through. *)
Theorem missing_key_is_fatal (cfg : config) (w : world) :
  PRIVATE_KEY cfg = "" →
  run cfg w = (Raise (SystemExit missing_key_message), [])
  ∧ script cfg w [] = (Raise (SystemExit missing_key_message), []).
Proof.
  intros Hkey. unfold script, run, main.
  rewrite bool_decide_eq_true_2 by done. done.
Qed.

Lemma missing_key_is_fatal_witness :
  run default_config (Sample.w Sample.feed (Success []))
  = (Raise (SystemExit missing_key_message), [])
  ∧ script default_config (Sample.w Sample.feed (Success [])) []
    = (Raise (SystemExit missing_key_message), []).
Proof.
  apply (missing_key_is_fatal default_config (Sample.w Sample.feed (Success []))).
  reflexivity.
Defined.

(** C5. If a run decides to buy, its latest trade has a key K, and the same
    run with any holdings that include a position with key K (in
    particular the former holdings extended by such a position) returns
    with the report that the position is already held; it does not decide
    to buy again and makes no call to the order client. *)
Theorem decide_idempotent (cfg : config) (w : world) :
  decision (run cfg w).2 = Some PlaceOrder →
  ∃ latest K my_positions,
    latest_of cfg w = Some latest
    ∧ activity_key latest = Some K
    ∧ fetched (positions w (FUNDER_ADDRESS cfg) 0) = Some my_positions
    ∧ ∀ p holdings,
        position_key p = K → p ∈ holdings →
        let again := run cfg (with_holdings w (Success holdings)) in
        again.1 = Return tt
        ∧ decision again.2 = Some AlreadyHeld
        ∧ clob_calls again.2 = [].
Proof.
  rewrite decision_run. intros Hbuy.
  destruct (run_decision_PlaceOrder cfg w Hbuy)
    as (latest & K & my_positions & Hlatest & HK & Hshown & Hpos & Hfree).
  exists latest, K, my_positions. split_and!; [done..|].
  intros p holdings Hp Hmem. cbv zeta.
  assert (decision (run cfg (with_holdings w (Success holdings))).2 = Some AlreadyHeld)
    as Hheld.
  { rewrite decision_run. revert Hbuy. unfold run_decision. simpl.
    apply latest_of_Some in Hlatest as (feed & Hfeed & Hloop).
    rewrite Hfeed. simpl. rewrite Hloop.
    destruct (bool_decide _); [done|].
    destruct (fetched (public_profile w _)); simpl; [|done].
    destruct (Activity.title latest), (Activity.outcome latest), (Activity.size latest),
      (Activity.price latest); simpl; try done.
    destruct (negb _); [done|].
    rewrite HK. simpl.
    change (history_shown cfg (with_holdings w (Success holdings)) K)
      with (history_shown cfg w K).
    rewrite Hshown. simpl. intros _.
    rewrite ?fetched_Success. simpl.
    assert (already_has_position holdings K.1 K.2 = true) as ->; [|done].
    apply already_has_position_true. exists p. by rewrite Hp, <-surjective_pairing. }
  split_and!; [|done|].
  - by apply run_AlreadyHeld.
  - apply clob_calls_after_decision. by rewrite Hheld.
Qed.

Lemma decide_idempotent_witness :
  let cfg := Sample.cfg false in
  let w := Sample.w Sample.feed (Success [Sample.unrelated]) in
  let again := run cfg (with_holdings w (Success ([Sample.unrelated] ++ [Sample.held]))) in
  decision (run cfg w).2 = Some PlaceOrder
  ∧ again.1 = Return tt
  ∧ decision again.2 = Some AlreadyHeld
  ∧ clob_calls again.2 = [].
Proof.
  intros cfg w again.
  assert (decision (run cfg w).2 = Some PlaceOrder) as Hbuy by (vm_compute; reflexivity).
  split; [exact Hbuy|].
  destruct (decide_idempotent cfg w Hbuy)
    as (latest & K & my_positions & Hlatest & HK & Hpos & Hnext).
  injection Hlatest as <-. injection HK as <-.
  apply (Hnext Sample.held); [reflexivity|]. right. left.
Defined.

Lemma latest_of_outcome cfg w :
  latest_of cfg w =
  match outcome_of (activity w 0 (TARGET_ADDRESS cfg) 20) with
  | Fetched feed => get_latest_bet_loop cfg feed
  | _ => None
  end.
Proof. unfold latest_of, fetched. by destruct (outcome_of _). Qed.


(** C6. Every order a run creates is the market order for the asset of the
    run's latest qualifying trade, on the BUY side, for the configured
    [BET_AMOUNT], fill-or-kill, and it is created only after the decision
    to buy; the amount is the configured one whatever the size of the
    target's trade.  A posted order is such a created order, signed, and
    the dry-run preview announces the same configured amount. *)
Theorem placed_order_is_configured_buy (cfg : config) (w : world) :
  (∀ order, order ∈ created_orders (run cfg w).2 →
     decision (run cfg w).2 = Some PlaceOrder
     ∧ ∃ latest asset,
         latest_of cfg w = Some latest ∧ Activity.asset latest = Some asset
         ∧ order = {| token_id := asset; amount := BET_AMOUNT cfg;
                      order_side := BUY; order_type := FOK |})
  ∧ (∀ client signed_order ot,
       (client, signed_order, ot) ∈ posted_orders (run cfg w).2 →
       ot = FOK
       ∧ ∃ order, created_orders (run cfg w).2 = [order]
                  ∧ create_market_order w client order = Some signed_order)
  ∧ (∀ a, a ∈ previewed_amounts (run cfg w).2 →
       a = BET_AMOUNT cfg ∧ decision (run cfg w).2 = Some PlaceOrder).
Proof.
  unfold latest_of, fetched.
  run_main; read_trace.
  all: split_and!; intros; repeat match goal with
         | H : _ ∈ [] |- _ => by apply elem_of_nil in H
         | H : _ ∈ [_] |- _ => apply list_elem_of_singleton in H
         end; simplify_eq.
  all: try done.
  all: split; [done|].
  all: first
    [ eexists _, _; split_and!; [eassumption|eassumption|reflexivity]
    | eexists; split; [reflexivity|eassumption] ].
Qed.

Lemma placed_order_is_configured_buy_witness :
  let cfg := Sample.cfg false in
  let w := Sample.w Sample.feed (Success []) in
  let order := {| token_id := "A1"; amount := QArith_base.Qmake 5 2;
                  order_side := "BUY"; order_type := FOK |} in
  order ∈ created_orders (run cfg w).2
  ∧ decision (run cfg w).2 = Some PlaceOrder
  ∧ ∃ latest asset,
      latest_of cfg w = Some latest ∧ Activity.asset latest = Some asset
      ∧ order = {| token_id := asset; amount := BET_AMOUNT cfg;
                   order_side := BUY; order_type := FOK |}.
Proof.
  intros cfg w order.
  assert (order ∈ created_orders (run cfg w).2) as Hin by (vm_compute; left).
  split; [exact Hin|].
  exact (proj1 (placed_order_is_configured_buy cfg w) order Hin).
Defined.

(** C8, as stated, does not hold: a read that comes back with a status
    outside 200 to 299 is not treated as a failure unless the status is
    from 400 to 599.  Here the holdings read is answered with status 300
    and a list of positions; the run uses that list, decides to buy and
    posts the order, and returns normally. *)
Lemma non_2xx_reply_is_used :
  let w := Sample.w Sample.feed (Response 300 (Some [Sample.unrelated])) in
  let r := run (Sample.cfg false) w in
  non_success_fetches r.2 = [300]
  ∧ r.1 = Return tt
  ∧ decision r.2 = Some PlaceOrder
  ∧ posted_orders r.2 ≠ [].
Proof. vm_compute. by repeat split. Qed.

(** C8, amended. If some HTTP read of a run (profile, latest activity,
    position history or holdings) comes back with a status on which
    [raise_for_status] raises, that is a status from 400 to 599, then the
    run ends by raising the HTTP error of that status, the failed read is
    the only failed one and the last thing the run did on the network, no
    decision has been reported, and the order client has not been called:
    nothing is retried and no order is created or posted.  Replies with
    another status are not treated as failures. *)
Theorem fetch_failure_aborts (cfg : config) (w : world) (status_code : Z) :
  status_code ∈ failed_fetches (run cfg w).2 →
  is_error_status status_code = true
  ∧ (run cfg w).1 = Raise (HTTPError status_code)
  ∧ failed_fetches (run cfg w).2 = [status_code]
  ∧ last (network_events (run cfg w).2) ≫= failed_fetch = Some status_code
  ∧ decision (run cfg w).2 = None
  ∧ clob_calls (run cfg w).2 = []
  ∧ (script cfg w []).1 = Return tt
  ∧ decision (script cfg w []).2 = None
  ∧ clob_calls (script cfg w []).2 = [].
Proof.
  unfold script. fold (run cfg w).
  run_main; read_trace.
  all: intros Hin; try by apply elem_of_nil in Hin.
  all: apply list_elem_of_singleton in Hin as ->.
  all: split; [by eapply outcome_of_Refused|].
  all: unfold print, emit; read_trace; done.
Qed.

Lemma fetch_failure_aborts_witness :
  let r := run (Sample.cfg false) (Sample.w Sample.feed (Response 503 None)) in
  r.1 = Raise (HTTPError 503) ∧ decision r.2 = None ∧ clob_calls r.2 = [].
Proof.
  destruct (fetch_failure_aborts (Sample.cfg false)
              (Sample.w Sample.feed (Response 503 None)) 503)
    as (_ & Hraise & _ & _ & Hnone & Hcalls & _).
  - vm_compute. left.
  - exact (conj Hraise (conj Hnone Hcalls)).
Defined.






(** * Further properties *)

(** ** [env_bool] *)

Example env_bool_examples :
  let environ : gmap string string :=
    {[ "A" := " Yes" +:+ newline; "B" := "0"; "C" := ""; "D" := "ON"; "E" := "tr ue" ]} in
  env_bool environ "A" false = true ∧ env_bool environ "B" true = false
  ∧ env_bool environ "C" true = false ∧ env_bool environ "D" false = true
  ∧ env_bool environ "E" true = false
  ∧ env_bool environ "G" true = true ∧ env_bool environ "G" false = false.
Proof. vm_compute. done. Qed.

Lemma lstrip_whitespace_app p s : all_whitespace p = true → lstrip (p +:+ s) = lstrip s.
Proof.
  induction p as [|c p IH]; [done|]. simpl. intros [Hc Hp]%andb_prop.
  change (String c p +:+ s) with (String c (p +:+ s)). simpl. rewrite Hc. auto.
Qed.

Lemma rstrip_whitespace p : all_whitespace p = true → rstrip p = "".
Proof.
  induction p as [|c p IH]; [done|]. simpl. intros [Hc Hp]%andb_prop.
  by rewrite IH, Hc.
Qed.

Lemma rstrip_app_whitespace s p : all_whitespace p = true → rstrip (s +:+ p) = rstrip s.
Proof.
  intros Hp. induction s as [|c s IH]; [by apply rstrip_whitespace|].
  change (String c s +:+ p) with (String c (s +:+ p)). simpl. by rewrite IH.
Qed.

Lemma rstrip_whitespace_app p s :
  all_whitespace p = true →
  rstrip (p +:+ s) = match rstrip s with EmptyString => "" | r => p +:+ r end.
Proof.
  induction p as [|c p IH]; simpl; intros Hp.
  - change ("" +:+ s) with s. by destruct (rstrip s).
  - apply andb_prop in Hp as [Hc Hp].
    change (String c p +:+ s) with (String c (p +:+ s)). simpl. rewrite IH by done.
    destruct (rstrip s) as [|a r]; [by rewrite Hc|].
    change (String c p +:+ String a r) with (String c (p +:+ String a r)).
    by destruct p.
Qed.

(** Whitespace around a value is not seen by [strip]. *)
Lemma strip_padding p1 v p2 :
  all_whitespace p1 = true → all_whitespace p2 = true →
  strip (p1 +:+ v +:+ p2) = strip v.
Proof.
  intros H1 H2. unfold strip.
  rewrite rstrip_whitespace_app, rstrip_app_whitespace by done.
  destruct (rstrip v) as [|a r] eqn:E; [done|].
  by rewrite lstrip_whitespace_app.
Qed.

Lemma is_whitespace_lower_char c : is_whitespace (lower_char c) = is_whitespace c.
Proof. by destruct c as [[] [] [] [] [] [] [] []]. Qed.

Lemma lower_lstrip s : lower (lstrip s) = lstrip (lower s).
Proof.
  induction s as [|c s IH]; [done|]. simpl. rewrite is_whitespace_lower_char.
  by destruct (is_whitespace c).
Qed.

Lemma lower_rstrip s : lower (rstrip s) = rstrip (lower s).
Proof.
  induction s as [|c s IH]; [done|]. simpl. rewrite <-IH, is_whitespace_lower_char.
  destruct (rstrip s); simpl; [|done]. by destruct (is_whitespace c).
Qed.

Lemma lower_strip s : lower (strip s) = strip (lower s).
Proof. unfold strip. by rewrite lower_lstrip, lower_rstrip. Qed.

(** X1. A variable that is not set reads as the default.  Once it is set,
    the default plays no part, and a value that is empty or made of
    whitespace only reads as false, whatever the default. *)
Theorem env_bool_set_ignores_default
    (environ : gmap string string) (name : string) (default : bool) :
  (environ !! name = None → env_bool environ name default = default)
  ∧ (∀ value, environ !! name = Some value →
       env_bool environ name default = env_bool environ name (negb default))
  ∧ (∀ value, environ !! name = Some value → all_whitespace value = true →
       env_bool environ name default = false).
Proof.
  unfold env_bool. split_and!.
  - by intros ->.
  - by intros value ->.
  - intros value -> Hws. unfold strip. by rewrite rstrip_whitespace.
Qed.

(** X2. On ASCII values, [env_bool] looks through whitespace around the
    value and through letter case: two values with the same lower-case
    form, one of them padded with whitespace on either side, read the
    same. *)
Theorem env_bool_ignores_case_and_padding
    (environ : gmap string string) (name : string) (default : bool)
    (value value' before after : string) :
  ascii_only value = true → ascii_only value' = true →
  all_whitespace before = true → all_whitespace after = true →
  lower value = lower value' →
  env_bool (<[name := before +:+ value +:+ after]> environ) name default
  = env_bool (<[name := value']> environ) name default.
Proof.
  intros _ _ Hb Ha Hcase. unfold env_bool.
  rewrite !lookup_insert_eq, strip_padding, !lower_strip, Hcase by done. done.
Qed.

Lemma env_bool_ignores_case_and_padding_witness :
  env_bool (<["POLYMARKET_DRY_RUN" := (" " +:+ newline) +:+ "TrUe" +:+ " "]> ∅)
    "POLYMARKET_DRY_RUN" false
  = env_bool (<["POLYMARKET_DRY_RUN" := "true"]> ∅) "POLYMARKET_DRY_RUN" false.
Proof.
  apply (env_bool_ignores_case_and_padding ∅ "POLYMARKET_DRY_RUN" false
           "TrUe" "true" (" " +:+ newline) " "); reflexivity.
Defined.

(** ** [already_has_position] *)

(** X3. With no holdings nothing is held, and holdings put together hold
    what either part holds; so adding positions never makes a held key
    unheld. *)
Theorem already_has_position_app (l1 l2 : list Position.t) (c : string) (o : Z) :
  already_has_position [] c o = false
  ∧ already_has_position (l1 ++ l2) c o
    = already_has_position l1 c o || already_has_position l2 c o
  ∧ (already_has_position l1 c o = true → already_has_position (l1 ++ l2) c o = true).
Proof.
  assert (already_has_position (l1 ++ l2) c o
    = already_has_position l1 c o || already_has_position l2 c o) as Happ.
  { apply eq_true_iff_eq. rewrite orb_true_iff, !already_has_position_true.
    split.
    - intros (p & [Hp|Hp]%elem_of_app & E); [left|right]; by exists p.
    - intros [(p & Hp & E)|(p & Hp & E)]; exists p; (split; [|done]);
        apply elem_of_app; [by left|by right]. }
  split_and!; [done|done|]. intros H1. by rewrite Happ, H1.
Qed.

(** X4. The answer depends on the holdings only through the set of their
    keys: the order of the snapshot, repeated positions, titles and outcome
    labels do not matter. *)
Theorem already_has_position_same_keys (l1 l2 : list Position.t) (c : string) (o : Z) :
  (∀ k, k ∈ position_key <$> l1 ↔ k ∈ position_key <$> l2) →
  already_has_position l1 c o = already_has_position l2 c o.
Proof.
  intros Hkeys. apply eq_true_iff_eq. rewrite !already_has_position_true.
  specialize (Hkeys (c, o)). rewrite !list_elem_of_fmap in Hkeys.
  split; intros (p & Hp & E).
  - destruct (proj1 Hkeys) as (q & ? & ?); [by exists p|]. by exists q.
  - destruct (proj2 Hkeys) as (q & ? & ?); [by exists p|]. by exists q.
Qed.

Lemma already_has_position_same_keys_witness :
  already_has_position [Sample.held; Sample.unrelated] "M1" 0
  = already_has_position
      [Sample.unrelated; Position.mk "M1" 0 "other title" "Yes"; Sample.held; Sample.unrelated]
      "M1" 0.
Proof.
  apply already_has_position_same_keys. intros k. simpl.
  rewrite !elem_of_cons, !elem_of_nil. unfold position_key. simpl. tauto.
Defined.

(** ** The scan of [get_latest_bet] *)

(** X5. The scan of a feed made of two parts is the scan of the first
    part, and that of the second only when the first has no qualifying
    entry; whatever it returns is an entry of the feed with type TRADE and
    side BUY. *)
Theorem get_latest_bet_loop_app (cfg : config) (feed1 feed2 : list Activity.t) :
  get_latest_bet_loop cfg (feed1 ++ feed2)
  = match get_latest_bet_loop cfg feed1 with
    | Some a => Some a
    | None => get_latest_bet_loop cfg feed2
    end
  ∧ (∀ a, get_latest_bet_loop cfg feed1 = Some a →
       a ∈ feed1 ∧ Activity.type a = Some "TRADE" ∧ Activity.side a = Some "BUY").
Proof.
  split.
  - induction feed1 as [|x feed1 IH]; [done|].
    change ((x :: feed1) ++ feed2) with (x :: (feed1 ++ feed2)).
    rewrite !get_latest_bet_loop_cons. by destruct (qualifies cfg x).
  - intros a (before & after & -> & _ & Hq)%get_latest_bet_loop_Some.
    split; [apply elem_of_app; right; left|].
    unfold qualifies, is_trade, is_buy in Hq.
    apply andb_prop in Hq as [[Ht Hb]%andb_prop _].
    by apply bool_decide_eq_true in Ht, Hb.
Qed.

(** X6. With the title filter switched off, titles play no part: the scan
    returns the first entry of the feed with type TRADE and side BUY, also
    when it has no title. *)
Theorem get_latest_bet_loop_unfiltered (cfg : config) (feed : list Activity.t) :
  FILTER_BITCOIN_UP_DOWN cfg = false →
  get_latest_bet_loop cfg feed = List.find (λ a, is_trade a && is_buy a) feed.
Proof.
  intros Hoff. induction feed as [|x feed IH]; [done|].
  rewrite get_latest_bet_loop_cons. simpl. unfold qualifies, title_filter.
  rewrite Hoff, andb_true_r. by destruct (is_trade x && is_buy x).
Qed.

Lemma get_latest_bet_loop_unfiltered_witness :
  get_latest_bet_loop (without_title_filter (Sample.cfg true)) Sample.feed
  = Some Sample.election.
Proof.
  rewrite (get_latest_bet_loop_unfiltered (without_title_filter (Sample.cfg true)) Sample.feed);
    reflexivity.
Defined.

(** ** [get_profile_name] *)

Lemma append_not_empty s1 s2 : s2 ≠ "" → s1 +:+ s2 ≠ "".
Proof. by destruct s1, s2. Qed.

(** X7. On a successful lookup the name shown is never empty: it is the
    profile's name when that is present and not empty, else its pseudonym
    when that is present and not empty, else the first ten characters of
    the address followed by three dots. *)
Theorem get_profile_name_not_empty
    (w : world) (wallet_address : string) (tr : list event) (profile : Profile.t) :
  public_profile w wallet_address = Success profile →
  ∃ shown,
    get_profile_name w wallet_address tr
    = (Return shown, tr ++ [Http_profile wallet_address (Success profile)])
    ∧ shown ≠ ""
    ∧ (∀ n, Profile.name profile = Some n → n ≠ "" → shown = n)
    ∧ (∀ n, Profile.name profile = None ∨ Profile.name profile = Some "" →
         Profile.pseudonym profile = Some n → n ≠ "" → shown = n)
    ∧ (Profile.name profile = None ∨ Profile.name profile = Some "" →
       Profile.pseudonym profile = None ∨ Profile.pseudonym profile = Some "" →
       shown = take_chars 10 wallet_address +:+ "...").
Proof.
  intros Hp. exists (display_name profile wallet_address).
  rewrite get_profile_name_run, Hp. split; [done|].
  unfold display_name.
  destruct (Profile.name profile) as [[|a n]|], (Profile.pseudonym profile) as [[|b m]|];
    simpl; split_and!; try done; try (by apply append_not_empty).
  all: try (by intros ? [= <-]).
  all: try (by intros ? [?|?]).
  all: try (by intros ? [?|?] [= <-]).
  all: try (by intros [?|?]).
  all: try (by intros [?|?] [?|?]).
Qed.

Lemma get_profile_name_not_empty_witness :
  ∃ shown,
    get_profile_name (Sample.w [] (Success [])) "0xtarget" []
    = (Return shown, [] ++ [Http_profile "0xtarget" (Success (Profile.mk None (Some "whale")))])
    ∧ shown ≠ "".
Proof.
  destruct (get_profile_name_not_empty (Sample.w [] (Success [])) "0xtarget" []
              (Profile.mk None (Some "whale")) eq_refl) as (shown & Hrun & Hne & _).
  exists shown. exact (conj Hrun Hne).
Defined.

(** ** Further properties of a run *)

Ltac read_run :=
  unfold http_reads, bought_reports, post_results, error_reports;
  read_trace.

Lemma already_has_position_false (my_positions : list Position.t) (K : PositionKey) :
  already_has_position my_positions K.1 K.2 = false
  ↔ ∀ p, p ∈ my_positions → position_key p ≠ K.
Proof.
  rewrite <-not_true_iff_false, already_has_position_true, <-surjective_pairing.
  split.
  - intros Hno p Hp E. apply Hno. by exists p.
  - intros Hno (p & Hp & E). by apply (Hno p).
Qed.

(** X8. A run decides to buy only when the signing key is set, the
    profile, latest-activity and holdings reads hand over their bodies, the
    feed has a qualifying trade that carries a title, an outcome, a size
    and a price that can be displayed and a position key, the history, if
    shown, was read and displayed, and no position of the holdings has that
    key. *)
Theorem buy_decision_only_when (cfg : config) (w : world) :
  decision (run cfg w).2 = Some PlaceOrder →
  PRIVATE_KEY cfg ≠ ""
  ∧ is_Some (fetched (public_profile w (TARGET_ADDRESS cfg)))
  ∧ ∃ latest K my_positions target_size price,
      latest_of cfg w = Some latest
      ∧ is_Some (Activity.title latest) ∧ is_Some (Activity.outcome latest)
      ∧ Activity.size latest = Some target_size ∧ Activity.price latest = Some price
      ∧ number_fits target_size = true ∧ number_fits (times_100 price) = true
      ∧ activity_key latest = Some K
      ∧ history_shown cfg w K = true
      ∧ fetched (positions w (FUNDER_ADDRESS cfg) 0) = Some my_positions
      ∧ ∀ p, p ∈ my_positions → position_key p ≠ K.
Proof.
  rewrite decision_run. unfold run_decision, latest_of.
  case_bool_decide as Hkey; [done|].
  destruct (fetched (public_profile w _)) as [profile|]; simpl; [|done].
  destruct (fetched (activity w 0 _ 20)) as [feed|]; simpl; [|done].
  destruct (get_latest_bet_loop cfg feed) as [latest|]; [|done].
  destruct (Activity.title latest) eqn:Ht; simpl; [|done].
  destruct (Activity.outcome latest) eqn:Ho; simpl; [|done].
  destruct (Activity.size latest) as [target_size|] eqn:Hs; simpl; [|done].
  destruct (Activity.price latest) as [price|] eqn:Hp; simpl; [|done].
  destruct (number_fits target_size && number_fits (times_100 price)) eqn:Hfit;
    simpl; [|done].
  apply andb_prop in Hfit as [Hsize Hprice].
  destruct (activity_key latest) as [K|] eqn:HK; simpl; [|done].
  destruct (history_shown cfg w K) eqn:Hshow; simpl; [|done].
  destruct (fetched (positions w _ 0)) as [my_positions|] eqn:Hpos; simpl; [|done].
  destruct (already_has_position my_positions K.1 K.2) eqn:Hheld; simpl; [done|].
  intros _. split_and!; [done|by eexists|].
  exists latest, K, my_positions, target_size, price. rewrite Ht, Ho.
  split_and!; try done; try by eexists.
  by apply already_has_position_false.
Qed.

Lemma buy_decision_only_when_witness :
  let cfg := Sample.cfg false in
  let w := Sample.w Sample.feed (Success [Sample.unrelated]) in
  PRIVATE_KEY cfg ≠ ""
  ∧ ∃ latest K my_positions,
      latest_of cfg w = Some latest ∧ activity_key latest = Some K
      ∧ fetched (positions w (FUNDER_ADDRESS cfg) 0) = Some my_positions
      ∧ ∀ p, p ∈ my_positions → position_key p ≠ K.
Proof.
  intros cfg w.
  destruct (buy_decision_only_when cfg w)
    as (Hkey & _ & latest & K & my_positions & _ & _ & Hlatest & _ & _ & _ & _ & _ & _
        & HK & _ & Hpos & Hfree).
  - vm_compute. reflexivity.
  - split; [exact Hkey|]. exists latest, K, my_positions.
    exact (conj Hlatest (conj HK (conj Hpos Hfree))).
Defined.

(** X9. A run that finds no qualifying trade returns normally after two
    reads, the profile and the twenty latest activities, none of which
    qualifies: it fetches neither the history nor the holdings and never
    calls the order client. *)
Theorem nothing_to_copy_stops_early (cfg : config) (w : world) :
  decision (run cfg w).2 = Some NoQualifyingActivity →
  ∃ profile feed,
    (run cfg w).1 = Return tt
    ∧ network_events (run cfg w).2
      = [Http_profile (TARGET_ADDRESS cfg) (public_profile w (TARGET_ADDRESS cfg));
         Http_activity (TARGET_ADDRESS cfg) 20 (activity w 0 (TARGET_ADDRESS cfg) 20)]
    ∧ fetched (public_profile w (TARGET_ADDRESS cfg)) = Some profile
    ∧ fetched (activity w 0 (TARGET_ADDRESS cfg) 20) = Some feed
    ∧ Forall (λ a, qualifies cfg a = false) feed.
Proof.
  unfold fetched.
  run_main; read_run; try done.
  intros _. eexists _, _. split_and!; [done..|].
  by apply get_latest_bet_loop_None.
Qed.

Lemma nothing_to_copy_stops_early_witness :
  let cfg := Sample.cfg false in
  let w := Sample.w [Sample.redeem; Sample.btc_sell; Sample.election] (Response 500 None) in
  ∃ profile feed,
    (run cfg w).1 = Return tt
    ∧ network_events (run cfg w).2
      = [Http_profile (TARGET_ADDRESS cfg) (public_profile w (TARGET_ADDRESS cfg));
         Http_activity (TARGET_ADDRESS cfg) 20 (activity w 0 (TARGET_ADDRESS cfg) 20)]
    ∧ fetched (public_profile w (TARGET_ADDRESS cfg)) = Some profile
    ∧ fetched (activity w 0 (TARGET_ADDRESS cfg) 20) = Some feed
    ∧ Forall (λ a, qualifies cfg a = false) feed.
Proof.
  apply (nothing_to_copy_stops_early (Sample.cfg false)
           (Sample.w [Sample.redeem; Sample.btc_sell; Sample.election] (Response 500 None))).
  vm_compute. reflexivity.
Defined.

(** X10. A dry run creates and posts no order and reports no purchase.
    When it decides to buy it still builds the order client.  If the
    client cannot be constructed from the configured key, the run ends
    there without a call to it.  Otherwise its only call to the client
    derives the API credentials.  The run previews the configured amount
    and returns exactly when the client was constructed and that call
    succeeded. *)
Theorem dry_run_places_no_order (cfg : config) (w : world) :
  DRY_RUN cfg = true →
  created_orders (run cfg w).2 = []
  ∧ posted_orders (run cfg w).2 = []
  ∧ bought_reports (run cfg w).2 = []
  ∧ (decision (run cfg w).2 = Some PlaceOrder →
     let client := {| host := CLOB_API; client_key := PRIVATE_KEY cfg; chain_id := 137;
                      signature_type := SIGNATURE_TYPE cfg; funder := FUNDER_ADDRESS cfg;
                      creds := None |} in
     clob_calls (run cfg w).2
     = (if new_client w client
        then [Clob_derive_api_key client (derive_api_key w client)] else [])
     ∧ (new_client w client = false → (run cfg w).1 = Raise ClobException)
     ∧ ((run cfg w).1 = Return tt
        ↔ new_client w client = true ∧ is_Some (derive_api_key w client))
     ∧ (previewed_amounts (run cfg w).2 = [BET_AMOUNT cfg]
        ↔ new_client w client = true ∧ is_Some (derive_api_key w client))).
Proof.
  run_main; read_run; try done.
  all: intros _; split_and!; try done.
  all: intros _; cbv zeta; use_equations; split_and!; try done.
  all: split; try done; try (by intros [? [? ?]]); try (by intros [? ?]).
  all: split; [done|by eexists].
Qed.

Lemma dry_run_places_no_order_witness :
  let cfg := Sample.cfg true in
  let w := Sample.w Sample.feed (Success [Sample.unrelated]) in
  created_orders (run cfg w).2 = [] ∧ posted_orders (run cfg w).2 = []
  ∧ bought_reports (run cfg w).2 = [].
Proof.
  destruct (dry_run_places_no_order (Sample.cfg true)
              (Sample.w Sample.feed (Success [Sample.unrelated])) eq_refl)
    as (Hc & Hp & Hb & _).
  exact (conj Hc (conj Hp Hb)).
Defined.
(** X11. Nothing is retried: a run makes at most four HTTP reads (three
    when the history is not shown), reports at most one decision, and
    makes at most three calls to the order client, of which at most one
    creates an order and at most one posts it. *)
Theorem run_acts_at_most_once (cfg : config) (w : world) :
  (length (http_reads (run cfg w).2) ≤ 4)%nat
  ∧ (SHOW_TARGET_POSITION_BETS cfg = false → (length (http_reads (run cfg w).2) ≤ 3)%nat)
  ∧ (length (omap decision_of_event (run cfg w).2) ≤ 1)%nat
  ∧ (length (clob_calls (run cfg w).2) ≤ 3)%nat
  ∧ (length (created_orders (run cfg w).2) ≤ 1)%nat
  ∧ (length (posted_orders (run cfg w).2) ≤ 1)%nat.
Proof.
  run_main; read_run.
  all: split_and!; try done; simpl; lia.
Qed.

(** X12. The purchase report is printed exactly when the order was posted
    successfully; it then names the configured amount, the run is live and
    returns normally.  A post that fails ends the run with the client's
    exception and without the report. *)
Theorem bought_report_iff_posted (cfg : config) (w : world) :
  (bought_reports (run cfg w).2 ≠ [] ↔ post_results (run cfg w).2 = [true])
  ∧ (∀ a o, (a, o) ∈ bought_reports (run cfg w).2 →
       a = BET_AMOUNT cfg ∧ DRY_RUN cfg = false ∧ (run cfg w).1 = Return tt)
  ∧ (post_results (run cfg w).2 = [false] → (run cfg w).1 = Raise ClobException).
Proof.
  run_main; read_run.
  all: split_and!; try done.
  all: try (intros ? ? Hin; first [by apply elem_of_nil in Hin
              | apply list_elem_of_singleton in Hin as [= -> ->]; done]).
Qed.

(** X13. A run returns normally exactly when it has reported an outcome:
    nothing to copy, position already held, the preview of a dry run, or a
    completed purchase. *)
Theorem normal_return_iff_reported (cfg : config) (w : world) :
  (run cfg w).1 = Return tt
  ↔ decision (run cfg w).2 = Some NoQualifyingActivity
    ∨ decision (run cfg w).2 = Some AlreadyHeld
    ∨ (decision (run cfg w).2 = Some PlaceOrder
       ∧ (previewed_amounts (run cfg w).2 ≠ [] ∨ bought_reports (run cfg w).2 ≠ [])).
Proof.
  run_main; read_run.
  all: split; [try done; intros _; auto|].
  all: try (right; right; split; [done|]; first [by left | by right]).
  all: try done.
  all: intros [?|[?|[_ [?|?]]]]; done.
Qed.

(** X14. All HTTP reads of a run come before all its calls to the order
    client: once the client is in use, nothing more is fetched. *)
Theorem reads_come_before_client_calls (cfg : config) (w : world) :
  network_events (run cfg w).2 = http_reads (run cfg w).2 ++ clob_calls (run cfg w).2.
Proof. run_main; read_run; done. Qed.

(** X15. The top-level block lets no exception through except the exit on
    a missing key: with a key set it always returns normally.  It reports
    an error line exactly when [main] raised, the status line for an HTTP
    error, and changes neither the decision nor the calls to the order
    client. *)
Theorem script_reports_errors (cfg : config) (w : world) :
  ((script cfg w []).1 = Return tt ↔ PRIVATE_KEY cfg ≠ "")
  ∧ (error_reports (script cfg w []).2 = []
     ↔ (run cfg w).1 = Return tt ∨ PRIVATE_KEY cfg = "")
  ∧ (∀ s, (run cfg w).1 = Raise (HTTPError s) →
       error_reports (script cfg w []).2 = [Api_error s])
  ∧ decision (script cfg w []).2 = decision (run cfg w).2
  ∧ clob_calls (script cfg w []).2 = clob_calls (run cfg w).2.
Proof.
  unfold script. fold (run cfg w).
  run_main; unfold print, emit; read_run.
  all: repeat match goal with
         | H : bool_decide _ = true |- _ => apply bool_decide_eq_true in H
         | H : bool_decide _ = false |- _ => apply bool_decide_eq_false in H
         end.
  all: split_and!; try done.
  all: try (split; [done|]; intros [?|?]; done).
  all: try (split; [by auto|done]).
  all: try (by intros ? [= ->]).
  all: split; [by right|done].
Qed.

(** X16. A latest trade that lacks a field stops the run where the field
    is read.  Without a title, or else an outcome, a size or a price, the
    run ends after its two first reads, with the [KeyError] of the first
    of these fields that is missing.  A trade without a market or outcome
    index never leads to a decision or to a call to the order client.  A
    missing asset matters to live runs only: a run that decides to buy
    creates and posts no order, and once its client is built, after the
    one call that derives the credentials, a live run ends with the
    [KeyError] of the asset, while a dry run does not read the asset and
    returns. *)
Theorem missing_field_stops_run (cfg : config) (w : world) (latest : Activity.t) :
  latest_of cfg w = Some latest →
  PRIVATE_KEY cfg ≠ "" →
  is_Some (fetched (public_profile w (TARGET_ADDRESS cfg))) →
  let stops k :=
    (run cfg w).1 = Raise (KeyError k)
    ∧ length (http_reads (run cfg w).2) = 2%nat
    ∧ decision (run cfg w).2 = None
    ∧ clob_calls (run cfg w).2 = [] in
  let client := {| host := CLOB_API; client_key := PRIVATE_KEY cfg; chain_id := 137;
                   signature_type := SIGNATURE_TYPE cfg; funder := FUNDER_ADDRESS cfg;
                   creds := None |} in
  (Activity.title latest = None → stops "title")
  ∧ (is_Some (Activity.title latest) → Activity.outcome latest = None → stops "outcome")
  ∧ (is_Some (Activity.title latest) → is_Some (Activity.outcome latest) →
     Activity.size latest = None → stops "size")
  ∧ (is_Some (Activity.title latest) → is_Some (Activity.outcome latest) →
     is_Some (Activity.size latest) → Activity.price latest = None → stops "price")
  ∧ (Activity.conditionId latest = None ∨ Activity.outcomeIndex latest = None →
     decision (run cfg w).2 = None ∧ clob_calls (run cfg w).2 = [])
  ∧ (Activity.asset latest = None → decision (run cfg w).2 = Some PlaceOrder →
     created_orders (run cfg w).2 = []
     ∧ posted_orders (run cfg w).2 = []
     ∧ (new_client w client = true → is_Some (derive_api_key w client) →
        (run cfg w).1 = (if DRY_RUN cfg then Return tt else Raise (KeyError "asset"))
        ∧ length (clob_calls (run cfg w).2) = 1%nat)).
Proof.
  rewrite latest_of_outcome. unfold fetched. cbv zeta.
  remember (run cfg w) as r eqn:Hr. revert Hr.
  run_main.
  all: intros ->; read_run.
  all: repeat match goal with
         | H : bool_decide _ = true |- _ => apply bool_decide_eq_true in H
         end.
  all: intros Hlatest Hkey Hprofile; simplify_eq; try done.
  all: try (by destruct Hprofile).
  all: split_and!; intros;
         repeat match goal with
         | H : is_Some _ |- _ => destruct H
         | H : _ ∨ _ |- _ => destruct H
         end; simplify_eq; try done.
  all: split_and!; try done; intros;
         repeat match goal with
         | H : is_Some _ |- _ => destruct H
         end; simplify_eq; done.
Qed.

Lemma missing_field_stops_run_witness :
  let cfg := Sample.cfg false in
  let no_asset :=
    Activity.mk (Some "TRADE") (Some "BUY") (Some "Bitcoin Up or Down - Nov 3") (Some "M1")
      (Some 0) (Some "Up") (Some (JInt 10)) (Some (JFloat (QArith_base.Qmake 1 2)))
      None in
  let w := Sample.w [no_asset] (Success []) in
  (run cfg w).1 = Raise (KeyError "asset")
  ∧ decision (run cfg w).2 = Some PlaceOrder
  ∧ created_orders (run cfg w).2 = []
  ∧ length (clob_calls (run cfg w).2) = 1%nat.
Proof.
  intros cfg no_asset w.
  assert (decision (run cfg w).2 = Some PlaceOrder) as Hbuy by (vm_compute; reflexivity).
  destruct (missing_field_stops_run cfg w no_asset) as (_ & _ & _ & _ & _ & Hasset).
  - vm_compute. reflexivity.
  - vm_compute. discriminate.
  - vm_compute. eexists. reflexivity.
  - destruct (Hasset eq_refl Hbuy) as (Hc & _ & Hrun).
    destruct Hrun as [Hraise Hcalls].
    + reflexivity.
    + vm_compute. eexists. reflexivity.
    + exact (conj Hraise (conj Hbuy (conj Hc Hcalls))).
Defined.

(** X17. A run asks for the profile of the target at most once, for the
    activity of the target at most twice, first for 20 entries, whatever
    the history limit, then for the history limit, and for the holdings of
    the funder, with size threshold 0, at most once; it never asks for the
    holdings of the target or the activity of the funder. *)
Theorem requests_are_addressed (cfg : config) (w : world) :
  profile_reads (run cfg w).2
    `prefix_of` [(TARGET_ADDRESS cfg, public_profile w (TARGET_ADDRESS cfg))]
  ∧ activity_reads (run cfg w).2
    `prefix_of` [(TARGET_ADDRESS cfg, 20, activity w 0 (TARGET_ADDRESS cfg) 20);
                 (TARGET_ADDRESS cfg, TARGET_POSITION_BETS_LIMIT cfg,
                  activity w 1 (TARGET_ADDRESS cfg) (TARGET_POSITION_BETS_LIMIT cfg))]
  ∧ positions_reads (run cfg w).2
    `prefix_of` [(FUNDER_ADDRESS cfg, 0, positions w (FUNDER_ADDRESS cfg) 0)].
Proof.
  run_main; unfold profile_reads, activity_reads, positions_reads; read_run.
  all: split_and!; by eexists.
Qed.

(** X18. Every call to the order client is made on a client for the CLOB
    host and chain 137 with the configured key, signature type and funder.
    The first call derives the credentials on a client that has none; the
    calls after it, if any, are on the client that carries exactly the
    derived credentials. *)
Theorem client_calls_use_configured_client (cfg : config) (w : world) :
  let client := {| host := CLOB_API; client_key := PRIVATE_KEY cfg; chain_id := 137;
                   signature_type := SIGNATURE_TYPE cfg; funder := FUNDER_ADDRESS cfg;
                   creds := None |} in
  let client' := {| host := CLOB_API; client_key := PRIVATE_KEY cfg; chain_id := 137;
                    signature_type := SIGNATURE_TYPE cfg; funder := FUNDER_ADDRESS cfg;
                    creds := derive_api_key w client |} in
  omap client_of (run cfg w).2 `prefix_of` [client; client'; client']
  ∧ (∀ c r, Clob_derive_api_key c r ∈ clob_calls (run cfg w).2 →
       c = client ∧ r = derive_api_key w client).
Proof.
  run_main; read_run.
  all: split; [by eexists|].
  all: intros c r Hin; repeat first
         [ by apply elem_of_nil in Hin
         | apply elem_of_cons in Hin as [[= -> ->]|Hin]; [done|]
         | apply elem_of_cons in Hin as [?|Hin]; [done|] ].
Qed.

(** X19. The profile lookup is cosmetic: two runs that differ only in the
    profile that the lookup returns reach the same decision. *)
Theorem profile_does_not_decide (cfg : config) (w : world) (profile profile' : Profile.t) :
  decision (run cfg (with_profile w (Success profile))).2
  = decision (run cfg (with_profile w (Success profile'))).2.
Proof. rewrite !decision_run. unfold run_decision. simpl. done. Qed.

(** ** [place_bet] *)

(** X20. [place_bet] asks the client once for a fill-or-kill market BUY of
    the given token and amount.  It posts only an order that this call
    returned, once, as fill-or-kill and on the same client, and returns
    normally exactly when the post succeeded; when no order is returned
    nothing is posted and the client's exception is raised. *)
Theorem place_bet_posts_what_it_created
    (w : world) (client : ClobClient) (token : string) (amt : Q) (tr : list event) :
  let order := {| token_id := token; amount := amt; order_side := BUY; order_type := FOK |} in
  ∃ calls,
    (place_bet w client token amt tr).2 = tr ++ calls
    ∧ created_orders calls = [order]
    ∧ posted_orders calls
      = match create_market_order w client order with
        | Some signed_order => [(client, signed_order, FOK)]
        | None => []
        end
    ∧ ((place_bet w client token amt tr).1 = Return tt ↔ post_results calls = [true])
    ∧ (create_market_order w client order = None →
       (place_bet w client token amt tr).1 = Raise ClobException).
Proof.
  intros order. rewrite place_bet_run. fold order. cbv zeta.
  destruct (create_market_order w client order) as [signed_order|].
  - eexists. split; [done|]. unfold post_results. simpl.
    destruct (post_order w client signed_order FOK); by split_and!.
  - eexists. split; [done|]. by split_and!.
Qed.

(** X21. A run reports the position as already held only when the
    signing key is set, the profile, latest-activity and holdings reads
    hand over their bodies, the feed has a qualifying trade that carries a
    title, an outcome, a size and a price that can be displayed and a
    position key, the history, if shown, was read and displayed, and some
    position of the holdings has that key. *)
Theorem already_held_decision_only_when (cfg : config) (w : world) :
  decision (run cfg w).2 = Some AlreadyHeld →
  PRIVATE_KEY cfg ≠ ""
  ∧ is_Some (fetched (public_profile w (TARGET_ADDRESS cfg)))
  ∧ ∃ latest K my_positions target_size price,
      latest_of cfg w = Some latest
      ∧ is_Some (Activity.title latest) ∧ is_Some (Activity.outcome latest)
      ∧ Activity.size latest = Some target_size ∧ Activity.price latest = Some price
      ∧ number_fits target_size = true ∧ number_fits (times_100 price) = true
      ∧ activity_key latest = Some K
      ∧ history_shown cfg w K = true
      ∧ fetched (positions w (FUNDER_ADDRESS cfg) 0) = Some my_positions
      ∧ ∃ p, p ∈ my_positions ∧ position_key p = K.
Proof.
  rewrite decision_run. unfold run_decision, latest_of.
  case_bool_decide as Hkey; [done|].
  destruct (fetched (public_profile w _)) as [profile|]; simpl; [|done].
  destruct (fetched (activity w 0 _ 20)) as [feed|]; simpl; [|done].
  destruct (get_latest_bet_loop cfg feed) as [latest|]; [|done].
  destruct (Activity.title latest) eqn:Ht; simpl; [|done].
  destruct (Activity.outcome latest) eqn:Ho; simpl; [|done].
  destruct (Activity.size latest) as [target_size|] eqn:Hs; simpl; [|done].
  destruct (Activity.price latest) as [price|] eqn:Hp; simpl; [|done].
  destruct (number_fits target_size && number_fits (times_100 price)) eqn:Hfit;
    simpl; [|done].
  apply andb_prop in Hfit as [Hsize Hprice].
  destruct (activity_key latest) as [K|] eqn:HK; simpl; [|done].
  destruct (history_shown cfg w K) eqn:Hshow; simpl; [|done].
  destruct (fetched (positions w _ 0)) as [my_positions|] eqn:Hpos; simpl; [|done].
  destruct (already_has_position my_positions K.1 K.2) eqn:Hheld; simpl; [|done].
  intros _. split_and!; [done|by eexists|].
  exists latest, K, my_positions, target_size, price. rewrite Ht, Ho.
  split_and!; try done; try by eexists.
  apply already_has_position_true in Hheld. by rewrite <-surjective_pairing in Hheld.
Qed.

Lemma already_held_decision_only_when_witness :
  let cfg := Sample.cfg false in
  let w := Sample.w Sample.feed (Success [Sample.unrelated; Sample.held]) in
  ∃ latest K my_positions,
    latest_of cfg w = Some latest ∧ activity_key latest = Some K
    ∧ fetched (positions w (FUNDER_ADDRESS cfg) 0) = Some my_positions
    ∧ ∃ p, p ∈ my_positions ∧ position_key p = K.
Proof.
  intros cfg w.
  destruct (already_held_decision_only_when cfg w)
    as (_ & _ & latest & K & my_positions & _ & _ & Hlatest & _ & _ & _ & _ & _ & _
        & HK & _ & Hpos & Hheld).
  - vm_compute. reflexivity.
  - exists latest, K, my_positions.
    exact (conj Hlatest (conj HK (conj Hpos Hheld))).
Defined.
